(** * thinkgo: the response writer and the senders of [Context]

    A shallow embedding of the response file of the thinkgo web framework
    ([Response], and the [Context] methods that write a response), with the
    properties of its commit state machine, of [Send]'s compression
    negotiation, of the cookie builders and of the JSON/JSONP/XML senders.

    Go strings and byte slices are sequences of 8-bit bytes: both are
    modelled by [string] (a list of [ascii]).  Go's [int] and [int64] are
    [Z]; where the code does arithmetic on them the 64-bit wrap-around is
    written out ([wrap64]).  A Go [error] is its message; [None] is [nil]. *)

From Stdlib Require Import ZArith Ascii String List Bool Lia.
From stdpp Require Import base option list gmap strings.

Local Open Scope Z_scope.

Definition bytes := string.
Definition error := string.

(** Two's-complement reduction to the range of [int64]. *)
Definition wrap64 (z : Z) : Z := (z + 2 ^ 63) mod 2 ^ 64 - 2 ^ 63.

Definition LF : ascii := "010"%char.
Definition CR : ascii := "013"%char.
Definition CRLF : string := String CR (String LF "").

(** A byte as a number, and back. *)
Definition byte_val (c : ascii) : Z := Z.of_N (N_of_ascii c).
Definition byte_of (z : Z) : ascii := ascii_of_N (Z.to_N (z mod 256)).

(** ** Package strconv *)
Module strconv.

Definition digit (d : Z) : ascii := ascii_of_N (48 + Z.to_N d).

(** The digits of [u], most significant first, pushed in front of [acc]. *)
Fixpoint formatBits (fuel : nat) (u : Z) (acc : string) : string :=
  match fuel with
  | O => acc
  | S fuel' =>
      let acc' := String (digit (u mod 10)) acc in
      if u / 10 =? 0 then acc' else formatBits fuel' (u / 10) acc'
  end.

(** [FormatInt(i, 10)]; a number has no more decimal than binary digits,
    so the fuel is never exhausted. *)
Definition FormatInt (i : Z) : string :=
  let u := Z.abs i in
  let s := formatBits (S (Z.to_nat (Z.log2 u))) u "" in
  if i <? 0 then String "-" s else s.

Definition Itoa (i : Z) : string := FormatInt i.

(** Reading a string of decimal digits back, to say what "decimal" means. *)
Fixpoint decimal_go (s : string) (acc : Z) : Z :=
  match s with
  | EmptyString => acc
  | String c s' => decimal_go s' (10 * acc + (byte_val c - 48))
  end.

Definition decimal_value (s : string) : Z := decimal_go s 0.

Definition is_digit (c : ascii) : bool := (48 <=? byte_val c) && (byte_val c <=? 57).

Fixpoint all_digits (s : string) : bool :=
  match s with
  | EmptyString => true
  | String c s' => is_digit c && all_digits s'
  end.

End strconv.

(** ** Package strings *)
Module gostrings.

(** [strings.NewReplacer] on pairs of one-byte strings builds a byte
    table; of two pairs with the same old byte the first one wins. *)
Definition Replacer := list (ascii * ascii).

Fixpoint lookup_byte (r : Replacer) (c : ascii) : ascii :=
  match r with
  | [] => c
  | (o, n) :: r' => if Ascii.eqb c o then n else lookup_byte r' c
  end.

Fixpoint Replace (r : Replacer) (s : string) : string :=
  match s with
  | EmptyString => EmptyString
  | String c s' => String (lookup_byte r c) (Replace r s')
  end.

Fixpoint Join (elems : list string) (sep : string) : string :=
  match elems with
  | [] => ""
  | [e] => e
  | e :: rest => e +:+ sep +:+ Join rest sep
  end.

Fixpoint HasPrefix (s prefix : string) : bool :=
  match prefix, s with
  | EmptyString, _ => true
  | String p prefix', String c s' => Ascii.eqb c p && HasPrefix s' prefix'
  | String _ _, EmptyString => false
  end.

(** Every byte of [s] is one of [chars]. *)
Fixpoint all_in (chars s : string) : bool :=
  match s with
  | EmptyString => true
  | String c s' =>
      match String.index 0 (String c "") chars with
      | Some _ => all_in chars s'
      | None => false
      end
  end.

Fixpoint Contains (s substr : string) : bool :=
  HasPrefix s substr ||
  match s with
  | EmptyString => false
  | String _ s' => Contains s' substr
  end.

End gostrings.

(** ** Package net/http: the header map *)
Module nethttp.

(** [http.Header] is [map[string][]string].  Its methods canonicalise the
    key first; every key this file passes is one of the constants below,
    which are in canonical form already. *)
Abbreviation Header := (gmap string (list string)).

Definition values (h : Header) (key : string) : list string :=
  default [] (h !! key).

Definition Get (h : Header) (key : string) : string :=
  match values h key with
  | [] => ""
  | v :: _ => v
  end.

Definition Set_ (key value : string) (h : Header) : Header :=
  <[key := [value]]> h.

Definition Add (key value : string) (h : Header) : Header :=
  <[key := values h key ++ [value]]> h.

Definition Del (key : string) (h : Header) : Header := delete key h.

(** What the code under verification asks of the [http.ResponseWriter] it
    wraps: the two calls that reach the connection, in order.  A
    [WriteHeader] call is recorded with the header map as it stands at the
    call, which is what goes out with the status line. *)
Inductive WriterCall :=
| CallWriteHeader (status : Z) (h : Header)
| CallWrite (b : bytes).

Record ResponseWriter := mkWriter {
  header : Header;            (* the map [Header()] hands out *)
  calls : list WriterCall     (* oldest first *)
}.

End nethttp.
Import nethttp.

(** Modelled from the spec: the header-name and MIME constants are declared
    in another file of the package; the spec names the headers
    [Set-Cookie], [Content-Encoding], [Content-Length], [Content-Type] and
    gives the content types of the senders. *)
Definition HeaderSetCookie : string := "Set-Cookie".
Definition HeaderContentEncoding : string := "Content-Encoding".
Definition HeaderContentLength : string := "Content-Length".
Definition HeaderContentType : string := "Content-Type".
Definition MIMEApplicationJSONCharsetUTF8 : string := "application/json; charset=utf-8".
Definition MIMEApplicationJavaScriptCharsetUTF8 : string :=
  "application/javascript; charset=utf-8".
Definition MIMEApplicationXMLCharsetUTF8 : string := "application/xml; charset=utf-8".

(** ** The data model *)

(** [Response].  Its [context] back-pointer is not a field here: the one
    method that follows it ([WriteHeader]) is a function on [Context]. *)
Record Response := mkResponse {
  writer : ResponseWriter;
  status : Z;
  size : Z;
  committed : bool
}.

(** The request, as far as this file looks at it: encoding negotiation
    reads its headers. *)
Record Request := mkRequest { req_header : Header }.

Inductive LogEntry := LogWarning (msg : string).

(** The fields of [Context] this file uses; [RunMode] is
    [ctx.frame.config.RunMode], [log] what [ctx.Log()] has received. *)
Record Context := mkContext {
  W : Response;
  R : Request;
  enableGzip : bool;
  RunMode : string;
  log : list LogEntry
}.

(** A call either returns its [error] or panics. *)
Inductive outcome :=
| Return (err : option error)
| Panic (msg : string).

Definition set_W (resp : Response) (ctx : Context) : Context :=
  mkContext resp (R ctx) (enableGzip ctx) (RunMode ctx) (log ctx).

Definition set_writer (w : ResponseWriter) (resp : Response) : Response :=
  mkResponse w (status resp) (size resp) (committed resp).

(** [resp.Header()] returns the writer's own map, *)
Definition Response_Header (resp : Response) : Header := header (writer resp).

(** so a mutation through it is an update of the writer's map. *)
Definition with_Header (f : Header -> Header) (ctx : Context) : Context :=
  set_W (set_writer (mkWriter (f (Response_Header (W ctx))) (calls (writer (W ctx))))
                    (W ctx)) ctx.

Definition Log_Warning (msg : string) (ctx : Context) : Context :=
  mkContext (W ctx) (R ctx) (enableGzip ctx) (RunMode ctx) (log ctx ++ [LogWarning msg]).

(** [Response.reset] (lines 62-67). *)
Definition reset (w : ResponseWriter) (resp : Response) : Response :=
  mkResponse w 0 0 false.

Section Senders.

(** The transport behind the writer: what [Write] returns (bytes taken,
    error) for a chunk, given the writer as it stands. *)
Variable transport : ResponseWriter -> bytes -> Z * option error.

(** Modelled from the spec: [Context.beforeWriteHeader] is in another file;
    the spec describes it as the pre-commit hook through which the request
    context injects last-moment headers. *)
Variable beforeWriteHeader : Header -> Header.

(** [acceptencoder.ParseEncoding] and [acceptencoder.WriteBody], from a
    package that is not shown.  [WriteBody encoding content] yields
    whether an encoding was applied, its name, and the bytes it wrote to
    the buffer (its error is dropped by [Send]). *)
Variable ParseEncoding : Request -> string.
Variable WriteBody : string -> bytes -> bool * string * bytes.

(** [Response.WriteHeader] (lines 84-93): the status is stored, the hook
    runs, the writer is called, the flag is set. *)
Definition Response_WriteHeader (st : Z) (ctx : Context) : Context :=
  let resp := W ctx in
  if committed resp then
    Log_Warning "multiple response.WriteHeader calls" ctx
  else
    let h := beforeWriteHeader (Response_Header resp) in
    let w := mkWriter h (calls (writer resp) ++ [CallWriteHeader st h]) in
    set_W (mkResponse w st (size resp) true) ctx.

(** [Response.Write] (lines 100-104). *)
Definition Response_Write (b : bytes) (ctx : Context) : Context * (Z * option error) :=
  let resp := W ctx in
  let '(n, err) := transport (writer resp) b in
  let w := mkWriter (header (writer resp)) (calls (writer resp) ++ [CallWrite b]) in
  (set_W (mkResponse w (status resp) (wrap64 (size resp + n)) (committed resp)) ctx,
   (n, err)).

(** [io.Copy(ctx.W, buf)] from a [*bytes.Buffer]: the buffer's [WriteTo]
    hands its whole contents to one [Write], and makes no call when it is
    empty. *)
Definition io_Copy_Buffer (buf : bytes) (ctx : Context) : Context * outcome :=
  let nBytes := Z.of_nat (String.length buf) in
  if 0 <? nBytes then
    let '(ctx', (m, e)) := Response_Write buf ctx in
    if nBytes <? m then (ctx', Panic "bytes.Buffer.WriteTo: invalid Write count")
    else match e with
         | Some _ => (ctx', Return e)
         | None => if m =? nBytes then (ctx', Return None)
                   else (ctx', Return (Some "short write"))
         end
  else (ctx, Return None).

(** [Context.Send] (lines 348-370). *)
Definition Send (st : Z) (content : bytes) (ctx : Context) : Context * outcome :=
  if committed (W ctx) then
    (ctx, Return (Some "multiple response.WriteHeader calls"))
  else
    (* the last two statements of the function *)
    let commit_and_write (ctx : Context) :=
      let ctx := Response_WriteHeader st ctx in
      let '(ctx, (_, err)) := Response_Write content ctx in
      (ctx, Return err) in
    if String.eqb (Get (Response_Header (W ctx)) HeaderContentEncoding) "" then
      let compressed :=
        if enableGzip ctx then
          let encoding := ParseEncoding (R ctx) in
          let '(b, n, buf) := WriteBody encoding content in
          if b then Some (n, buf) else None
        else None in
      match compressed with
      | Some (n, buf) =>
          let ctx := with_Header (Set_ HeaderContentEncoding n) ctx in
          let ctx := Response_WriteHeader st ctx in
          io_Copy_Buffer buf ctx
      | None =>
          let ctx :=
            if String.eqb (Get (Response_Header (W ctx)) HeaderContentLength) "" then
              with_Header (Set_ HeaderContentLength
                             (strconv.Itoa (Z.of_nat (String.length content)))) ctx
            else ctx in
          commit_and_write ctx
      end
    else commit_and_write ctx.

(** [Context.NoContent] (lines 337-339). *)
Definition NoContent (st : Z) (ctx : Context) : Context := Response_WriteHeader st ctx.

(** The two calls that commit a response, as values, to speak of
    sequences of them; [WriteHeader] returns nothing. *)
Inductive CommitCall :=
| DoWriteHeader (st : Z)
| DoSend (st : Z) (content : bytes).

Definition perform (c : CommitCall) (ctx : Context) : Context * outcome :=
  match c with
  | DoWriteHeader st => (Response_WriteHeader st ctx, Return None)
  | DoSend st content => Send st content ctx
  end.

End Senders.

(** ** Cookies *)

(** A value of type [interface{}], as far as [SetCookie]'s type switches
    tell values apart; [Other] is a non-nil value of any other type. *)
Inductive any :=
| Nil
| Int (v : Z)
| Int32 (v : Z)
| Int64 (v : Z)
| Str (v : string)
| Boolean (v : bool)
| Other.

(** The two sanitizers (lines 313-323). *)
Definition cookieNameSanitizer : gostrings.Replacer :=
  [(LF, "-"%char); (CR, "-"%char)].

Definition sanitizeName (n : string) : string :=
  gostrings.Replace cookieNameSanitizer n.

Definition cookieValueSanitizer : gostrings.Replacer :=
  [(LF, " "%char); (CR, " "%char); (";"%char, " "%char)].

Definition sanitizeValue (v : string) : string :=
  gostrings.Replace cookieValueSanitizer v.

(** [time.Second], in nanoseconds. *)
Definition time_Second : Z := 1000000000.

Section Cookies.

(** [time.Now().Add(d).UTC().Format(time.RFC1123)] as a function of the
    duration [d]. *)
Variable expiresAfter : Z -> string.

(** [Context.SetCookie] (lines 240-311) writes the cookie into a buffer
    piece by piece; each piece is a function here.  [others !! i] is
    [Some] exactly when [len(others) > i].

    The [name=value] pair that opens the cookie: *)
Definition cookiePair (name value : string) : string :=
  sanitizeName name +:+ "=" +:+ sanitizeValue value.

Definition maxAgeAttr (others : list any) : string :=
  match others !! 0%nat with
  | Some v =>
      let maxAge := match v with
                    | Int v | Int32 v | Int64 v => v
                    | _ => 0
                    end in
      if 0 <? maxAge then
        "; Expires=" +:+ expiresAfter (wrap64 (maxAge * time_Second))
          +:+ "; Max-Age=" +:+ strconv.FormatInt maxAge
      else if maxAge <? 0 then "; Max-Age=0"
      else ""
  | None => ""
  end.

Definition pathAttr (others : list any) : string :=
  match others !! 1%nat with
  | Some v =>                                   (* len(others) > 1 *)
      match v with
      | Str v => if (0 <? String.length v)%nat then "; Path=" +:+ sanitizeValue v else ""
      | _ => ""
      end
  | None => "; Path=/"
  end.

Definition domainAttr (others : list any) : string :=
  match others !! 2%nat with
  | Some (Str v) => if (0 <? String.length v)%nat then "; Domain=" +:+ sanitizeValue v else ""
  | _ => ""
  end.

Definition secureAttr (others : list any) : string :=
  match others !! 3%nat with
  | Some v =>
      let secure := match v with
                    | Boolean v => v
                    | Nil => false
                    | _ => true
                    end in
      if secure then "; Secure" else ""
  | None => ""
  end.

Definition httpOnlyAttr (others : list any) : string :=
  let httponly := match others !! 4%nat with
                  | Some (Boolean true) => true
                  | _ => false
                  end in
  if httponly then "; HttpOnly" else "".

(** The buffer [b] of [SetCookie] after its writes, in order. *)
Definition cookieString (name value : string) (others : list any) : string :=
  cookiePair name value +:+ maxAgeAttr others +:+ pathAttr others
    +:+ domainAttr others +:+ secureAttr others +:+ httpOnlyAttr others.

Definition SetCookie (name value : string) (others : list any) (ctx : Context) : Context :=
  with_Header (Add HeaderSetCookie (cookieString name value others)) ctx.

(** Successive calls, given by their arguments. *)
Definition SetCookies (cs : list (string * string * list any)) (ctx : Context) : Context :=
  fold_left (fun ctx c => SetCookie c.1.1 c.1.2 c.2 ctx) cs ctx.

End Cookies.

(** The cookie methods of [Response] (lines 109-121); [cookie] is
    [cookie.String()]. *)
Definition on_Header (f : Header -> Header) (r : Response) : Response :=
  set_writer (mkWriter (f (Response_Header r)) (calls (writer r))) r.

Definition Response_AddCookie (cookie : string) (r : Response) : Response :=
  on_Header (Add HeaderSetCookie cookie) r.

Definition Response_SetCookie (cookie : string) (r : Response) : Response :=
  on_Header (Set_ HeaderSetCookie cookie) r.

Definition Response_DelCookie (r : Response) : Response :=
  on_Header (Del HeaderSetCookie) r.

(** ** Packages encoding/base64, crypto/sha1, crypto/hmac and the [%02x] verb *)

Module base64.

(** The alphabet of [URLEncoding]. *)
Definition encodeURL : string :=
  "ABCDEFGHIJKLMNOPQRSTUVWXYZabcdefghijklmnopqrstuvwxyz0123456789-_".

Definition enc (v : Z) : ascii :=
  match String.get (Z.to_nat (v mod 64)) encodeURL with
  | Some c => c
  | None => "="%char
  end.

(** [URLEncoding.EncodeToString]: three bytes to four characters, the
    last group padded with [=]. *)
Fixpoint EncodeToString (src : string) : string :=
  match src with
  | EmptyString => EmptyString
  | String a EmptyString =>
      let v := byte_val a * 65536 in
      String (enc (v / 262144)) (String (enc (v / 4096)) "==")
  | String a (String b EmptyString) =>
      let v := byte_val a * 65536 + byte_val b * 256 in
      String (enc (v / 262144)) (String (enc (v / 4096)) (String (enc (v / 64)) "="))
  | String a (String b (String c rest)) =>
      let v := byte_val a * 65536 + byte_val b * 256 + byte_val c in
      String (enc (v / 262144)) (String (enc (v / 4096))
        (String (enc (v / 64)) (String (enc v) (EncodeToString rest))))
  end.

End base64.

Module hex.

Definition hextable : string := "0123456789abcdef".

Definition nibble (v : Z) : ascii :=
  match String.get (Z.to_nat (v mod 16)) hextable with
  | Some c => c
  | None => "0"%char
  end.

Fixpoint EncodeToString (src : bytes) : string :=
  match src with
  | EmptyString => EmptyString
  | String c rest =>
      String (nibble (byte_val c / 16)) (String (nibble (byte_val c)) (EncodeToString rest))
  end.

End hex.

(** [fmt.Sprintf("%02x", b)] for a byte slice: two lower-case hex digits
    per byte; an empty slice is padded to the width. *)
Definition Sprintf_02x (b : bytes) : string :=
  match b with
  | EmptyString => "00"
  | _ => hex.EncodeToString b
  end.

Module sha1.

Definition add32 (a b : Z) : Z := (a + b) mod 2 ^ 32.
Definition rotl (n x : Z) : Z :=
  Z.lor (Z.shiftl x n mod 2 ^ 32) (Z.shiftr x (32 - n)).
Definition not32 (x : Z) : Z := Z.lxor x 4294967295.

Definition Size : nat := 20.
Definition BlockSize : nat := 64.

(** Big-endian bytes of a word, [n] of them. *)
Fixpoint be_bytes (n : nat) (x : Z) : list Z :=
  match n with
  | O => []
  | S n' => (x / 256 ^ Z.of_nat n') mod 256 :: be_bytes n' x
  end.

Definition padding (len : nat) : list Z :=
  128 :: repeat 0 ((55 + 64 - len mod 64) mod 64)%nat
    ++ be_bytes 8 ((8 * Z.of_nat len) mod 2 ^ 64).

Fixpoint words (bs : list Z) : list Z :=
  match bs with
  | a :: b :: c :: d :: rest => ((a * 256 + b) * 256 + c) * 256 + d :: words rest
  | _ => []
  end.

(** The message schedule, newest word first. *)
Fixpoint schedule (n : nat) (ws : list Z) : list Z :=
  match n with
  | O => ws
  | S n' =>
      let w := Z.lxor (Z.lxor (nth 2 ws 0) (nth 7 ws 0))
                      (Z.lxor (nth 13 ws 0) (nth 15 ws 0)) in
      schedule n' (rotl 1 w :: ws)
  end.

Definition digest := (Z * Z * Z * Z * Z)%type.

Definition init : digest :=
  (1732584193, 4023233417, 2562383102, 271733878, 3285377520).

Definition round (t : nat) (st : digest) (w : Z) : digest :=
  let '(a, b, c, d, e) := st in
  let '(f, k) :=
    if (t <? 20)%nat then (Z.lor (Z.land b c) (Z.land (not32 b) d), 1518500249)
    else if (t <? 40)%nat then (Z.lxor (Z.lxor b c) d, 1859775393)
    else if (t <? 60)%nat then
      (Z.lor (Z.lor (Z.land b c) (Z.land b d)) (Z.land c d), 2400959708)
    else (Z.lxor (Z.lxor b c) d, 3395469782) in
  let temp := add32 (add32 (add32 (add32 (rotl 5 a) f) e) w) k in
  (temp, a, rotl 30 b, c, d).

Fixpoint rounds (t : nat) (ws : list Z) (st : digest) : digest :=
  match ws with
  | [] => st
  | w :: ws' => rounds (S t) ws' (round t st w)
  end.

Definition block (st : digest) (bs : list Z) : digest :=
  let ws := rev (schedule 64 (rev (words bs))) in
  let '(h0, h1, h2, h3, h4) := st in
  let '(a, b, c, d, e) := rounds 0 ws st in
  (add32 h0 a, add32 h1 b, add32 h2 c, add32 h3 d, add32 h4 e).

Fixpoint blocks (n : nat) (st : digest) (bs : list Z) : digest :=
  match n with
  | O => st
  | S n' => blocks n' (block st (firstn BlockSize bs)) (skipn BlockSize bs)
  end.

(** [sha1.Sum]: the 20 bytes of the digest. *)
Definition Sum (data : bytes) : bytes :=
  let m := map byte_val (list_ascii_of_string data) in
  let padded := m ++ padding (length m) in
  let '(h0, h1, h2, h3, h4) :=
    blocks (length padded / BlockSize)%nat init padded in
  string_of_list_ascii
    (map byte_of (be_bytes 4 h0 ++ be_bytes 4 h1 ++ be_bytes 4 h2
                    ++ be_bytes 4 h3 ++ be_bytes 4 h4)).

End sha1.

Module hmac.

Fixpoint xor_pad (pad : Z) (n : nat) (key : string) : string :=
  match n with
  | O => EmptyString
  | S n' =>
      match key with
      | EmptyString => String (byte_of pad) (xor_pad pad n' EmptyString)
      | String c key' => String (byte_of (Z.lxor (byte_val c) pad)) (xor_pad pad n' key')
      end
  end.

(** [hmac.New(sha1.New, key)], the message written, then [Sum(nil)]. *)
Definition Sum_sha1 (key message : bytes) : bytes :=
  let key := if (sha1.BlockSize <? String.length key)%nat then sha1.Sum key else key in
  let ipad := xor_pad 54 sha1.BlockSize key in
  let opad := xor_pad 92 sha1.BlockSize key in
  sha1.Sum (opad +:+ sha1.Sum (ipad +:+ message)).

End hmac.

Section SecureCookie.

Variable expiresAfter : Z -> string.

(** The clock reading [time.Now().UnixNano()] of the call. *)
Variable now_UnixNano : Z.

(** [Context.SetSecureCookie] (lines 326-334): the value it builds, *)
Definition secureCookieValue (secret value : string) : string :=
  let vs := base64.EncodeToString value in
  let timestamp := strconv.FormatInt now_UnixNano in
  let sig := Sprintf_02x (hmac.Sum_sha1 secret (vs +:+ timestamp)) in
  gostrings.Join [vs; timestamp; sig] "|".

(** and the call that passes it on. *)
Definition SetSecureCookie (secret name value : string) (others : list any)
  (ctx : Context) : Context :=
  SetCookie expiresAfter name (secureCookieValue secret value) others ctx.

End SecureCookie.

(** ** The JSON, JSONP and XML senders *)

Definition dquote : string := String "034"%char "".

(** [xml.Header] *)
Definition xml_Header : string :=
  "<?xml version=" +:+ dquote +:+ "1.0" +:+ dquote +:+ " encoding=" +:+ dquote
    +:+ "UTF-8" +:+ dquote +:+ "?>" +:+ String LF "".

Section Serializers.

Variable transport : ResponseWriter -> bytes -> Z * option error.
Variable beforeWriteHeader : Header -> Header.
Variable ParseEncoding : Request -> string.
Variable WriteBody : string -> bytes -> bool * string * bytes.

(** The values handed to the senders and the marshalers of encoding/json
    and encoding/xml, each returning Go's pair of bytes and error;
    [MarshalIndent] takes the prefix and the indent. *)
Variable Data : Type.
Variable json_Marshal : Data -> bytes * option error.
Variable json_MarshalIndent : Data -> string -> string -> bytes * option error.
Variable xml_Marshal : Data -> bytes * option error.
Variable xml_MarshalIndent : Data -> string -> string -> bytes * option error.

(** [template.JSEscapeString] of html/template. *)
Variable JSEscapeString : string -> string.

(** The run-mode constant, declared in another file of the package. *)
Variable RUNMODE_PROD : string.

Local Abbreviation send := (Send transport beforeWriteHeader ParseEncoding WriteBody).

(** [Context.JSONBlob] (lines 407-410). *)
Definition JSONBlob (st : Z) (b : bytes) (ctx : Context) : Context * outcome :=
  let ctx := with_Header (Set_ HeaderContentType MIMEApplicationJSONCharsetUTF8) ctx in
  send st b ctx.

(** [Context.JSON] (lines 390-404). *)
Definition JSON (st : Z) (data : Data) (ctx : Context) : Context * outcome :=
  let '(b, err) :=
    if String.eqb (RunMode ctx) RUNMODE_PROD then json_Marshal data
    else json_MarshalIndent data "" "  " in
  match err with
  | Some _ => (ctx, Return err)
  | None => JSONBlob st b ctx
  end.

(** [Context.JSONP] (lines 414-434). *)
Definition JSONP (st : Z) (callback : string) (data : Data) (ctx : Context)
  : Context * outcome :=
  let '(b, err) :=
    if String.eqb (RunMode ctx) RUNMODE_PROD then json_Marshal data
    else json_MarshalIndent data "" "  " in
  match err with
  | Some _ => (ctx, Return err)
  | None =>
      let ctx := with_Header (Set_ HeaderContentType MIMEApplicationJavaScriptCharsetUTF8) ctx in
      let callback := JSEscapeString callback in
      let callbackContent := " if(window." +:+ callback +:+ ")" +:+ callback in
      let callbackContent := callbackContent +:+ "(" in
      let callbackContent := callbackContent +:+ b in
      let callbackContent := callbackContent +:+ ");" +:+ CRLF in
      send st callbackContent ctx
  end.

(** [Context.XMLBlob] (lines 454-459). *)
Definition XMLBlob (st : Z) (b : bytes) (ctx : Context) : Context * outcome :=
  let ctx := with_Header (Set_ HeaderContentType MIMEApplicationXMLCharsetUTF8) ctx in
  let content := xml_Header +:+ b in
  send st content ctx.

(** [Context.XML] (lines 437-451). *)
Definition XML (st : Z) (data : Data) (ctx : Context) : Context * outcome :=
  let '(b, err) :=
    if String.eqb (RunMode ctx) RUNMODE_PROD then xml_Marshal data
    else xml_MarshalIndent data "" "  " in
  match err with
  | Some _ => (ctx, Return err)
  | None => XMLBlob st b ctx
  end.

(** The three senders that marshal, as values, with the marshal call each
    of them makes. *)
Inductive Sender :=
| ViaJSON
| ViaJSONP (callback : string)
| ViaXML.

Definition marshal_call (s : Sender) (ctx : Context) (data : Data) : bytes * option error :=
  match s with
  | ViaJSON | ViaJSONP _ =>
      if String.eqb (RunMode ctx) RUNMODE_PROD then json_Marshal data
      else json_MarshalIndent data "" "  "
  | ViaXML =>
      if String.eqb (RunMode ctx) RUNMODE_PROD then xml_Marshal data
      else xml_MarshalIndent data "" "  "
  end.

Definition serialize (s : Sender) (st : Z) (data : Data) (ctx : Context)
  : Context * outcome :=
  match s with
  | ViaJSON => JSON st data ctx
  | ViaJSONP callback => JSONP st callback data ctx
  | ViaXML => XML st data ctx
  end.

End Serializers.

(** ** The rest of the response file *)

(** [Response.Status], [Response.Size], [Response.Committed]
    (lines 153-165). *)
Definition Response_Status (resp : Response) : Z := status resp.
Definition Response_Size (resp : Response) : Z := size resp.
Definition Response_Committed (resp : Response) : bool := committed resp.

(** The status classes (lines 186-236); [&&] binds tighter than [||]. *)
Definition IsCachable (ctx : Context) : bool :=
  (200 <=? status (W ctx)) && (status (W ctx) <? 300) || (status (W ctx) =? 304).

Definition IsEmpty (ctx : Context) : bool :=
  (status (W ctx) =? 201) || (status (W ctx) =? 204) || (status (W ctx) =? 304).

Definition IsOk (ctx : Context) : bool := status (W ctx) =? 200.

Definition IsSuccessful (ctx : Context) : bool :=
  (200 <=? status (W ctx)) && (status (W ctx) <? 300).

Definition IsRedirect (ctx : Context) : bool :=
  (status (W ctx) =? 301) || (status (W ctx) =? 302) || (status (W ctx) =? 303)
  || (status (W ctx) =? 307).

Definition IsForbidden (ctx : Context) : bool := status (W ctx) =? 403.

Definition IsNotFound (ctx : Context) : bool := status (W ctx) =? 404.

Definition IsClientError (ctx : Context) : bool :=
  (400 <=? status (W ctx)) && (status (W ctx) <? 500).

Definition IsServerError (ctx : Context) : bool :=
  (500 <=? status (W ctx)) && (status (W ctx) <? 600).

(** ** Package net/textproto: canonical header keys *)
Module textproto.

Definition is_lower (c : ascii) : bool := (97 <=? byte_val c) && (byte_val c <=? 122).
Definition is_upper (c : ascii) : bool := (65 <=? byte_val c) && (byte_val c <=? 90).
Definition is_digit (c : ascii) : bool := (48 <=? byte_val c) && (byte_val c <=? 57).

(** The bytes of an RFC 7230 token. *)
Definition validHeaderFieldByte (c : ascii) : bool :=
  is_lower c || is_upper c || is_digit c
  || match String.index 0 (String c "") "!#$%&'*+-.^_`|~" with
     | Some _ => true
     | None => false
     end.

Fixpoint all_valid (s : string) : bool :=
  match s with
  | EmptyString => true
  | String c s' => validHeaderFieldByte c && all_valid s'
  end.

Definition toLower : Z := 32.

(** The rewriting loop: upper case at the start and after each dash,
    lower case elsewhere. *)
Fixpoint canonical_go (upper : bool) (s : string) : string :=
  match s with
  | EmptyString => EmptyString
  | String c s' =>
      let c' := if upper && is_lower c then byte_of (byte_val c - toLower)
                else if negb upper && is_upper c then byte_of (byte_val c + toLower)
                else c in
      String c' (canonical_go (Ascii.eqb c' "-"%char) s')
  end.

(** [CanonicalMIMEHeaderKey]: a key holding a byte that is not a token byte
    is returned as it is. *)
Definition CanonicalMIMEHeaderKey (s : string) : string :=
  if all_valid s then canonical_go true s else s.

(** A key with its ASCII letters in lower case, to compare spellings. *)
Fixpoint fold_case (s : string) : string :=
  match s with
  | EmptyString => EmptyString
  | String c s' =>
      String (if is_upper c then byte_of (byte_val c + toLower) else c) (fold_case s')
  end.

End textproto.

(** [Context.SetHeader] (lines 168-170); [Header.Set] canonicalises the
    key. *)
Definition SetHeader (key val : string) (ctx : Context) : Context :=
  with_Header (Set_ (textproto.CanonicalMIMEHeaderKey key) val) ctx.

(** Modelled from the spec: more constants of the package's header file;
    the spec gives the headers [File] sets and the content type of
    [String]. *)
Definition HeaderContentDescription : string := "Content-Description".
Definition HeaderContentDisposition : string := "Content-Disposition".
Definition HeaderContentTransferEncoding : string := "Content-Transfer-Encoding".
Definition HeaderExpires : string := "Expires".
Definition HeaderCacheControl : string := "Cache-Control".
Definition HeaderPragma : string := "Pragma".
Definition MIMEOctetStream : string := "application/octet-stream".
Definition MIMETextPlainCharsetUTF8 : string := "text/plain; charset=utf-8".

(** Successive [Write]s and successive commit-causing calls. *)
Definition Writes (transport : ResponseWriter -> bytes -> Z * option error)
  (bs : list bytes) (ctx : Context) : Context :=
  fold_left (fun c b => (Response_Write transport b c).1) bs ctx.

Definition total_length (bs : list bytes) : Z :=
  fold_right (fun b acc => Z.of_nat (String.length b) + acc) 0 bs.

(** How often a byte occurs in a string. *)
Fixpoint count_byte (c : ascii) (s : string) : nat :=
  match s with
  | EmptyString => O
  | String c' s' => ((if Ascii.eqb c' c then 1 else 0) + count_byte c s')%nat
  end.

(** How many status lines a writer has been asked for. *)
Fixpoint count_WriteHeader (cs : list WriterCall) : nat :=
  match cs with
  | [] => O
  | CallWriteHeader _ _ :: cs' => S (count_WriteHeader cs')
  | CallWrite _ :: cs' => count_WriteHeader cs'
  end.

Section MoreSenders.

Variable transport : ResponseWriter -> bytes -> Z * option error.
Variable beforeWriteHeader : Header -> Header.
Variable ParseEncoding : Request -> string.
Variable WriteBody : string -> bytes -> bool * string * bytes.
Variable Data : Type.
Variable json_Marshal : Data -> bytes * option error.
Variable json_MarshalIndent : Data -> string -> string -> bytes * option error.
Variable xml_Marshal : Data -> bytes * option error.
Variable xml_MarshalIndent : Data -> string -> string -> bytes * option error.
Variable JSEscapeString : string -> string.
Variable RUNMODE_PROD : string.

(** [mime.TypeByExtension], [fmt.Sprintf] and [filepath.Base]. *)
Variable TypeByExtension : string -> string.
Variable Sprintf : string -> list any -> string.
Variable filepath_Base : string -> string.

(** [Context.AcceptJSON], [Context.AcceptXML] and the file server's
    [ServeFile], from other files of the package; and the constant
    [MIMETextHTMLCharsetUTF8]. *)
Variable AcceptJSON : Context -> bool.
Variable AcceptXML : Context -> bool.
Variable ServeFile : Context -> string -> Context.
Variable MIMETextHTMLCharsetUTF8 : string.

Variable expiresAfter : Z -> string.

Local Abbreviation send := (Send transport beforeWriteHeader ParseEncoding WriteBody).

(** [Context.SetContentType] (lines 174-182). *)
Definition SetContentType (ext : string) (ctx : Context) : Context :=
  let ext := if negb (gostrings.HasPrefix ext ".") then "." +:+ ext else ext in
  let ctype := TypeByExtension ext in
  if negb (String.eqb ctype "") then with_Header (Set_ HeaderContentType ctype) ctx
  else ctx.

(** [Context.String] (lines 373-379). *)
Definition String_ (st : Z) (format : string) (s : list any) (ctx : Context)
  : Context * outcome :=
  let ctx := with_Header (Set_ HeaderContentType MIMETextPlainCharsetUTF8) ctx in
  if (length s =? 0)%nat then send st format ctx
  else send st (Sprintf format s) ctx.

(** [Context.HTML] (lines 382-387): the bytes of the string, reinterpreted
    in place. *)
Definition HTML (st : Z) (html : string) (ctx : Context) : Context * outcome :=
  let ctx := with_Header (Set_ HeaderContentType MIMETextHTMLCharsetUTF8) ctx in
  send st html ctx.

(** [Context.JSONOrXML] (lines 462-467). *)
Definition JSONOrXML (st : Z) (data : Data) (ctx : Context) : Context * outcome :=
  if AcceptJSON ctx || negb (AcceptXML ctx) then
    JSON transport beforeWriteHeader ParseEncoding WriteBody Data
         json_Marshal json_MarshalIndent RUNMODE_PROD st data ctx
  else
    XML transport beforeWriteHeader ParseEncoding WriteBody Data
        xml_Marshal xml_MarshalIndent RUNMODE_PROD st data ctx.

(** The headers [Context.File] sets (lines 472-482), *)
Definition File_headers (file : string) (filename : list string) (h : Header) : Header :=
  let h := Set_ HeaderContentDescription "File Transfer" h in
  let h := Set_ HeaderContentType MIMEOctetStream h in
  let h :=
    match filename with
    | f0 :: _ =>
        if negb (String.eqb f0 "") then
          Set_ HeaderContentDisposition ("attachment; filename=" +:+ f0) h
        else Set_ HeaderContentDisposition ("attachment; filename=" +:+ filepath_Base file) h
    | [] => Set_ HeaderContentDisposition ("attachment; filename=" +:+ filepath_Base file) h
    end in
  let h := Set_ HeaderContentTransferEncoding "binary" h in
  let h := Set_ HeaderExpires "0" h in
  let h := Set_ HeaderCacheControl "must-revalidate" h in
  Set_ HeaderPragma "public" h.

(** and [Context.File] (lines 471-484), which then hands over to the file
    server. *)
Definition File (file : string) (filename : list string) (ctx : Context) : Context :=
  ServeFile (with_Header (File_headers file filename) ctx) file.

(** The operations of this file on one response, as values, to speak of
    arbitrary handler code; [reset], which starts the next response, and
    [File], which leaves the file, are not among them. *)
Inductive Op :=
| OpWriteHeader (st : Z)
| OpWrite (b : bytes)
| OpNoContent (st : Z)
| OpSend (st : Z) (content : bytes)
| OpSetHeader (key val : string)
| OpSetContentType (ext : string)
| OpAddCookie (cookie : string)
| OpResponseSetCookie (cookie : string)
| OpDelCookie
| OpSetCookie (name value : string) (others : list any)
| OpSetSecureCookie (now : Z) (secret name value : string) (others : list any)
| OpString (st : Z) (format : string) (s : list any)
| OpHTML (st : Z) (html : string)
| OpJSON (st : Z) (data : Data)
| OpJSONBlob (st : Z) (b : bytes)
| OpJSONP (st : Z) (callback : string) (data : Data)
| OpXML (st : Z) (data : Data)
| OpXMLBlob (st : Z) (b : bytes)
| OpJSONOrXML (st : Z) (data : Data).

Definition apply_op (o : Op) (ctx : Context) : Context :=
  match o with
  | OpWriteHeader st => Response_WriteHeader beforeWriteHeader st ctx
  | OpWrite b => (Response_Write transport b ctx).1
  | OpNoContent st => NoContent beforeWriteHeader st ctx
  | OpSend st content => (send st content ctx).1
  | OpSetHeader key val => SetHeader key val ctx
  | OpSetContentType ext => SetContentType ext ctx
  | OpAddCookie cookie => set_W (Response_AddCookie cookie (W ctx)) ctx
  | OpResponseSetCookie cookie => set_W (Response_SetCookie cookie (W ctx)) ctx
  | OpDelCookie => set_W (Response_DelCookie (W ctx)) ctx
  | OpSetCookie name value others => SetCookie expiresAfter name value others ctx
  | OpSetSecureCookie now secret name value others =>
      SetSecureCookie expiresAfter now secret name value others ctx
  | OpString st format s => (String_ st format s ctx).1
  | OpHTML st html => (HTML st html ctx).1
  | OpJSON st data =>
      (JSON transport beforeWriteHeader ParseEncoding WriteBody Data
            json_Marshal json_MarshalIndent RUNMODE_PROD st data ctx).1
  | OpJSONBlob st b =>
      (JSONBlob transport beforeWriteHeader ParseEncoding WriteBody st b ctx).1
  | OpJSONP st callback data =>
      (JSONP transport beforeWriteHeader ParseEncoding WriteBody Data
             json_Marshal json_MarshalIndent JSEscapeString RUNMODE_PROD
             st callback data ctx).1
  | OpXML st data =>
      (XML transport beforeWriteHeader ParseEncoding WriteBody Data
           xml_Marshal xml_MarshalIndent RUNMODE_PROD st data ctx).1
  | OpXMLBlob st b =>
      (XMLBlob transport beforeWriteHeader ParseEncoding WriteBody st b ctx).1
  | OpJSONOrXML st data => (JSONOrXML st data ctx).1
  end.

Definition apply_ops (os : list Op) (ctx : Context) : Context :=
  fold_left (fun c o => apply_op o c) os ctx.

Definition perform_all (cs : list CommitCall) (ctx : Context) : Context :=
  fold_left (fun c call =>
               (perform transport beforeWriteHeader ParseEncoding WriteBody call c).1)
            cs ctx.

End MoreSenders.

(** Whether a commit-causing call is a [WriteHeader]. *)
Definition is_DoWriteHeader (c : CommitCall) : bool :=
  match c with
  | DoWriteHeader _ => true
  | DoSend _ _ => false
  end.

(** The balance a handler keeps between two states of a context: the
    status lines asked of the writer and the commit flag move together, the
    flag is never cleared, and the calls already made stay. *)
Definition flag (b : bool) : nat := if b then 1%nat else 0%nat.

Definition commit_balance (ctx ctx' : Context) : Prop :=
  (count_WriteHeader (calls (writer (W ctx'))) + flag (committed (W ctx))
   = count_WriteHeader (calls (writer (W ctx))) + flag (committed (W ctx')))%nat
  /\ implb (committed (W ctx)) (committed (W ctx')) = true
  /\ exists added, calls (writer (W ctx')) = calls (writer (W ctx)) ++ added.

(** The bytes [base64.URLEncoding] writes, and those of a decimal
    integer. *)
Definition base64_chars : string :=
  "ABCDEFGHIJKLMNOPQRSTUVWXYZabcdefghijklmnopqrstuvwxyz0123456789-_=".
Definition decimal_chars : string := "-0123456789".

(** A table of two extensions for [mime.TypeByExtension], and a base
    name function for paths without a slash. *)
Definition sample_TypeByExtension (ext : string) : string :=
  if String.eqb ext ".css" then "text/css; charset=utf-8"
  else if String.eqb ext ".png" then "image/png"
  else "".

Definition sample_Base (path : string) : string := path.

(** ** Sample collaborators

    Concrete instances of the parameters, to run the definitions on. *)

(** A transport that takes every byte, and one that fails. *)
Definition transport_ok (w : ResponseWriter) (b : bytes) : Z * option error :=
  (Z.of_nat (String.length b), None).

Definition transport_broken (w : ResponseWriter) (b : bytes) : Z * option error :=
  (0, Some "broken pipe").

Definition no_hook (h : Header) : Header := h.

(** A negotiator that applies gzip when the request's Accept-Encoding is
    exactly [gzip]; the bytes stand for the compressed body. *)
Definition sample_ParseEncoding (r : Request) : string :=
  Get (req_header r) "Accept-Encoding".

Definition sample_WriteBody (encoding : string) (content : bytes) : bool * string * bytes :=
  if String.eqb encoding "gzip" then (true, "gzip", "<gz>" +:+ content)
  else (false, "", content).

Definition gzip_request : Request :=
  mkRequest (Set_ "Accept-Encoding" "gzip" ∅).

Definition fresh_writer : ResponseWriter := mkWriter ∅ [].

(** Two values to marshal: the map [{"a": 1}] and a channel, which neither
    marshaler accepts (encoding/xml accepts no map either). *)
Inductive SampleData := MapA1 | Chan.

Definition sample_json_Marshal (d : SampleData) : bytes * option error :=
  match d with
  | MapA1 => ("{" +:+ dquote +:+ "a" +:+ dquote +:+ ":1}", None)
  | Chan => ("", Some "json: unsupported type: chan int")
  end.

Definition sample_json_MarshalIndent (d : SampleData) (prefix indent : string)
  : bytes * option error :=
  match d with
  | MapA1 => ("{" +:+ String LF (prefix +:+ indent) +:+ dquote +:+ "a" +:+ dquote +:+ ": 1"
                +:+ String LF prefix +:+ "}", None)
  | Chan => ("", Some "json: unsupported type: chan int")
  end.

Definition sample_xml_Marshal (d : SampleData) : bytes * option error :=
  match d with
  | MapA1 => ("", Some "xml: unsupported type: map[string]int")
  | Chan => ("", Some "xml: unsupported type: chan int")
  end.

Definition sample_xml_MarshalIndent (d : SampleData) (prefix indent : string)
  : bytes * option error := sample_xml_Marshal d.

(** The identity escapes a callback made of letters only. *)
Definition sample_JSEscapeString (s : string) : string := s.

(** A clock for which every expiry falls on the same instant. *)
Definition sample_expiresAfter (d : Z) : string := "Thu, 01 Jan 2026 00:00:00 UTC".

Definition fresh_context (gz : bool) : Context :=
  mkContext (mkResponse fresh_writer 0 0 false) gzip_request gz "dev" [].

(** * Properties *)

(** ** The header map *)

Lemma Get_Set_eq k v (h : Header) : Get (Set_ k v h) k = v.
Proof. unfold Get, values, Set_. now rewrite lookup_insert_eq. Qed.

Lemma lookup_Set_ne k k' v (h : Header) : k' <> k -> Set_ k v h !! k' = h !! k'.
Proof. intros Hk. unfold Set_. now apply lookup_insert_ne. Qed.

Lemma Get_Set_ne k k' v (h : Header) : k' <> k -> Get (Set_ k v h) k' = Get h k'.
Proof. intros Hk. unfold Get, values. now rewrite lookup_Set_ne. Qed.

Lemma values_Set_eq k v (h : Header) : values (Set_ k v h) k = [v].
Proof. unfold values, Set_. now rewrite lookup_insert_eq. Qed.

Lemma values_Add_eq k v (h : Header) : values (Add k v h) k = values h k ++ [v].
Proof. unfold values at 1, Add. now rewrite lookup_insert_eq. Qed.

Lemma lookup_Add_ne k k' v (h : Header) : k' <> k -> Add k v h !! k' = h !! k'.
Proof. intros Hk. unfold Add. now apply lookup_insert_ne. Qed.

Lemma values_Del_eq k (h : Header) : values (Del k h) k = [].
Proof. unfold values, Del. now rewrite lookup_delete_eq. Qed.

(** ** Strings *)

(** [simpl] leaves [+:+] alone; its two equations are rewritten instead. *)
Lemma append_cons c (s t : string) : String c s +:+ t = String c (s +:+ t).
Proof. reflexivity. Qed.

Lemma append_empty_l (t : string) : "" +:+ t = t.
Proof. reflexivity. Qed.

Ltac step_append := rewrite ?append_cons, ?append_empty_l.

Lemma append_assoc (s t u : string) : (s +:+ t) +:+ u = s +:+ (t +:+ u).
Proof. induction s as [|c s IH]; step_append; [reflexivity|now rewrite IH]. Qed.

Lemma append_empty_r (s : string) : s +:+ "" = s.
Proof. induction s as [|c s IH]; step_append; [reflexivity|now rewrite IH]. Qed.

Lemma length_append (s t : string) :
  String.length (s +:+ t) = (String.length s + String.length t)%nat.
Proof. induction s as [|c s IH]; step_append; simpl; [reflexivity|now rewrite IH]. Qed.

(** ** Decimal formatting *)

Lemma decimal_go_app s t acc :
  strconv.decimal_go (s +:+ t) acc = strconv.decimal_go t (strconv.decimal_go s acc).
Proof. revert acc. induction s as [|c s IH]; intros acc; step_append; simpl; auto. Qed.

Lemma all_digits_app s t :
  strconv.all_digits (s +:+ t) = strconv.all_digits s && strconv.all_digits t.
Proof.
  induction s as [|c s IH]; step_append; simpl; auto.
  rewrite IH. now rewrite andb_assoc.
Qed.

Lemma digit_val d : 0 <= d < 10 -> byte_val (strconv.digit d) = 48 + d.
Proof.
  intros Hd. unfold byte_val, strconv.digit.
  rewrite N_ascii_embedding; lia.
Qed.

Lemma is_digit_digit d : 0 <= d < 10 -> strconv.is_digit (strconv.digit d) = true.
Proof.
  intros Hd. unfold strconv.is_digit. rewrite (digit_val d Hd).
  apply andb_true_iff; split; apply Z.leb_le; lia.
Qed.

(** With enough fuel [formatBits] puts the decimal digits of [u] in front
    of the accumulator. *)
Lemma formatBits_digits fuel : forall u acc,
  0 <= u < 2 ^ Z.of_nat fuel ->
  exists ds, strconv.formatBits fuel u acc = ds +:+ acc
    /\ strconv.all_digits ds = true
    /\ forall a, strconv.decimal_go ds a = a * 10 ^ Z.of_nat (String.length ds) + u.
Proof.
  induction fuel as [|fuel IH]; intros u acc Hu.
  - exists ""%string. simpl in *. repeat split; auto. intros a. lia.
  - simpl strconv.formatBits.
    assert (Hm : 0 <= u mod 10 < 10) by (apply Z.mod_pos_bound; lia).
    destruct (u / 10 =? 0) eqn:Hq.
    + apply Z.eqb_eq in Hq.
      exists (String (strconv.digit (u mod 10)) ""). simpl. repeat split.
      * now rewrite (is_digit_digit _ Hm).
      * intros a. rewrite (digit_val _ Hm).
        pose proof (Z.div_mod u 10). lia.
    + destruct (IH (u / 10) (String (strconv.digit (u mod 10)) acc)) as (ds & Hf & Hd & Hv).
      { split; [apply Z.div_pos; lia|].
        apply Z.div_lt_upper_bound; [lia|].
        rewrite Nat2Z.inj_succ, Z.pow_succ_r in Hu by lia. lia. }
      exists (ds +:+ String (strconv.digit (u mod 10)) ""). repeat split.
      * rewrite Hf. now rewrite append_assoc.
      * rewrite all_digits_app, Hd. simpl. now rewrite (is_digit_digit _ Hm).
      * intros a. rewrite decimal_go_app, Hv. simpl.
        rewrite (digit_val _ Hm), length_append. simpl String.length.
        rewrite Nat2Z.inj_add. change (Z.of_nat 1) with 1.
        rewrite Z.pow_add_r by lia.
        pose proof (Z.div_mod u 10). lia.
Qed.

(** [Itoa] of a natural number is its decimal numeral. *)
Lemma Itoa_decimal (n : Z) :
  0 <= n ->
  strconv.all_digits (strconv.Itoa n) = true
  /\ strconv.decimal_value (strconv.Itoa n) = n.
Proof.
  intros Hn. unfold strconv.Itoa, strconv.FormatInt.
  rewrite Z.abs_eq by lia.
  destruct (n <? 0) eqn:Hneg; [apply Z.ltb_lt in Hneg; lia|].
  destruct (formatBits_digits (S (Z.to_nat (Z.log2 n))) n "") as (ds & Hf & Hd & Hv).
  { split; [lia|]. rewrite Nat2Z.inj_succ, Z2Nat.id by apply Z.log2_nonneg.
    destruct (Z.eq_dec n 0) as [->|Hz]; [simpl; lia|].
    apply Z.log2_spec. lia. }
  rewrite Hf, append_empty_r. split; [exact Hd|].
  unfold strconv.decimal_value. rewrite Hv. lia.
Qed.

(** ** The commit state machine *)

Section SendProperties.

Variable transport : ResponseWriter -> bytes -> Z * option error.
Variable beforeWriteHeader : Header -> Header.
Variable ParseEncoding : Request -> string.
Variable WriteBody : string -> bytes -> bool * string * bytes.

Local Abbreviation WriteHeader := (Response_WriteHeader beforeWriteHeader).
Local Abbreviation Write := (Response_Write transport).
Local Abbreviation copy := (io_Copy_Buffer transport).
Local Abbreviation send := (Send transport beforeWriteHeader ParseEncoding WriteBody).
Local Abbreviation run := (perform transport beforeWriteHeader ParseEncoding WriteBody).

Lemma WriteHeader_commits st ctx : committed (W (WriteHeader st ctx)) = true.
Proof.
  unfold Response_WriteHeader.
  destruct (committed (W ctx)) eqn:Hc; simpl; auto.
Qed.

Lemma WriteHeader_when_committed st ctx :
  committed (W ctx) = true ->
  WriteHeader st ctx = Log_Warning "multiple response.WriteHeader calls" ctx.
Proof. intros Hc. unfold Response_WriteHeader. now rewrite Hc. Qed.

Lemma WriteHeader_when_fresh st ctx :
  committed (W ctx) = false ->
  WriteHeader st ctx =
    let h := beforeWriteHeader (Response_Header (W ctx)) in
    set_W (mkResponse (mkWriter h (calls (writer (W ctx)) ++ [CallWriteHeader st h]))
                      st (size (W ctx)) true) ctx.
Proof. intros Hc. unfold Response_WriteHeader. now rewrite Hc. Qed.

Lemma Write_keeps_committed b ctx :
  committed (W (Write b ctx).1) = committed (W ctx).
Proof.
  unfold Response_Write. destruct (transport (writer (W ctx)) b); reflexivity.
Qed.

Lemma copy_keeps_committed buf ctx :
  committed (W (copy buf ctx).1) = committed (W ctx).
Proof.
  unfold io_Copy_Buffer.
  destruct (0 <? Z.of_nat (String.length buf)); [|reflexivity].
  pose proof (Write_keeps_committed buf ctx) as Hw.
  destruct (Write buf ctx) as [ctx' [m e]]; simpl in Hw.
  destruct (Z.of_nat (String.length buf) <? m); [exact Hw|].
  destruct e; [exact Hw|].
  destruct (m =? Z.of_nat (String.length buf)); exact Hw.
Qed.

Lemma commit_and_write_commits st content ctx :
  committed (W (let '(c, (_, err)) := Write content (WriteHeader st ctx) in
                (c, Return err)).1) = true.
Proof.
  pose proof (Write_keeps_committed content (WriteHeader st ctx)) as Hw.
  destruct (Write content (WriteHeader st ctx)) as [c [n e]]; simpl in *.
  now rewrite Hw, WriteHeader_commits.
Qed.

Lemma Send_when_committed st content ctx :
  committed (W ctx) = true ->
  send st content ctx = (ctx, Return (Some "multiple response.WriteHeader calls")).
Proof. intros Hc. unfold Send. now rewrite Hc. Qed.

Lemma Send_commits st content ctx : committed (W (send st content ctx).1) = true.
Proof.
  unfold Send.
  destruct (committed (W ctx)) eqn:Hc; [exact Hc|].
  destruct (String.eqb _ ""); [|apply commit_and_write_commits].
  match goal with |- context [match ?c with Some _ => _ | None => _ end] =>
    destruct c as [[n buf]|] end.
  - now rewrite copy_keeps_committed, WriteHeader_commits.
  - apply commit_and_write_commits.
Qed.

Lemma commit_and_write_fresh st content ctx :
  committed (W ctx) = false ->
  let h := beforeWriteHeader (Response_Header (W ctx)) in
  let res := transport (mkWriter h (calls (writer (W ctx)) ++ [CallWriteHeader st h]))
                       content in
  (let '(c, (_, err)) := Write content (WriteHeader st ctx) in (c, Return err)) =
  (set_W (mkResponse
            (mkWriter h (calls (writer (W ctx)) ++ [CallWriteHeader st h; CallWrite content]))
            st (wrap64 (size (W ctx) + res.1)) true) ctx,
   Return res.2).
Proof.
  intros Hc h res.
  rewrite (WriteHeader_when_fresh st ctx Hc). fold h.
  unfold Response_Write; simpl. fold res.
  destruct res as [n e]; simpl.
  unfold set_W; simpl. now rewrite <- app_assoc.
Qed.

Lemma Send_encoding_set st content ctx :
  committed (W ctx) = false ->
  Get (Response_Header (W ctx)) HeaderContentEncoding <> "" ->
  let h := beforeWriteHeader (Response_Header (W ctx)) in
  let res := transport (mkWriter h (calls (writer (W ctx)) ++ [CallWriteHeader st h]))
                       content in
  send st content ctx =
  (set_W (mkResponse
            (mkWriter h (calls (writer (W ctx)) ++ [CallWriteHeader st h; CallWrite content]))
            st (wrap64 (size (W ctx) + res.1)) true) ctx,
   Return res.2).
Proof.
  intros Hc Hce h res. unfold Send. rewrite Hc.
  apply String.eqb_neq in Hce. rewrite Hce.
  now apply commit_and_write_fresh.
Qed.

Lemma perform_commits c ctx : committed (W (run c ctx).1) = true.
Proof. destruct c; simpl; [apply WriteHeader_commits | apply Send_commits]. Qed.

(** C1: after any commit-causing call ([WriteHeader] or [Send]) on any
    context, a second one reaches the underlying writer with nothing: the
    response (its writer's calls and headers, the stored status, the
    size, the commit flag) is as the first call left it.  A second
    [WriteHeader] only logs the warning; a second [Send] changes nothing
    at all and returns the explicit error. *)
Theorem second_commit_call_writes_nothing (ctx : Context) (c1 c2 : CommitCall) :
  let ctx1 := (run c1 ctx).1 in
  let ctx2 := (run c2 ctx1).1 in
  W ctx2 = W ctx1
  /\ calls (writer (W ctx2)) = calls (writer (W ctx1))
  /\ status (W ctx2) = status (W ctx1)
  /\ match c2 with
     | DoWriteHeader _ =>
         log ctx2 = log ctx1 ++ [LogWarning "multiple response.WriteHeader calls"]
     | DoSend _ _ =>
         ctx2 = ctx1
         /\ (run c2 ctx1).2 = Return (Some "multiple response.WriteHeader calls")
     end.
Proof.
  intros ctx1 ctx2.
  pose proof (perform_commits c1 ctx) as Hc. fold ctx1 in Hc.
  assert (HW : W ctx2 = W ctx1 /\
               match c2 with
               | DoWriteHeader _ =>
                   log ctx2 = log ctx1 ++ [LogWarning "multiple response.WriteHeader calls"]
               | DoSend _ _ =>
                   ctx2 = ctx1 /\
                   (run c2 ctx1).2 = Return (Some "multiple response.WriteHeader calls")
               end).
  { subst ctx2. destruct c2 as [st|st content]; simpl.
    - rewrite (WriteHeader_when_committed st ctx1 Hc). split; reflexivity.
    - rewrite (Send_when_committed st content ctx1 Hc). repeat split; reflexivity. }
  destruct HW as [HW Hrest]. rewrite HW. repeat split; auto.
Qed.

Lemma Write_keeps_header b ctx :
  Response_Header (W (Write b ctx).1) = Response_Header (W ctx).
Proof.
  unfold Response_Write. destruct (transport (writer (W ctx)) b); reflexivity.
Qed.

Lemma copy_keeps_header buf ctx :
  Response_Header (W (copy buf ctx).1) = Response_Header (W ctx).
Proof.
  unfold io_Copy_Buffer.
  destruct (0 <? Z.of_nat (String.length buf)); [|reflexivity].
  pose proof (Write_keeps_header buf ctx) as Hw.
  destruct (Write buf ctx) as [ctx' [m e]]; simpl in Hw.
  destruct (Z.of_nat (String.length buf) <? m); [exact Hw|].
  destruct e; [exact Hw|].
  destruct (m =? Z.of_nat (String.length buf)); exact Hw.
Qed.

(** Whatever the branch, [Send] on an uncommitted response changes at most
    one header before the hook runs: Content-Encoding or Content-Length,
    never both. *)
Lemma Send_sets_one_header st content ctx :
  committed (W ctx) = false ->
  let h0 := Response_Header (W ctx) in
  exists h1,
    Response_Header (W (send st content ctx).1) = beforeWriteHeader h1
    /\ (h1 = h0
        \/ (exists n, h1 = Set_ HeaderContentEncoding n h0)
        \/ h1 = Set_ HeaderContentLength
                  (strconv.Itoa (Z.of_nat (String.length content))) h0).
Proof.
  intros Hc h0.
  assert (Hplain : forall c0, committed (W c0) = false ->
            Response_Header
              (W (let '(c, (_, err)) := Write content (WriteHeader st c0) in
                  (c, Return err)).1)
            = beforeWriteHeader (Response_Header (W c0))).
  { intros c0 H0. pose proof (Write_keeps_header content (WriteHeader st c0)) as Hw.
    destruct (Write content (WriteHeader st c0)) as [c [n e]]; simpl in *.
    rewrite Hw, (WriteHeader_when_fresh st c0 H0). reflexivity. }
  unfold Send. rewrite Hc.
  destruct (String.eqb _ "").
  - match goal with |- context [match ?c with Some _ => _ | None => _ end] =>
      destruct c as [[n buf]|] end.
    + exists (Set_ HeaderContentEncoding n h0). split; [|right; left; now exists n].
      rewrite copy_keeps_header, WriteHeader_when_fresh by exact Hc. reflexivity.
    + destruct (String.eqb (Get (Response_Header (W ctx)) HeaderContentLength) "").
      * eexists. split; [apply Hplain; exact Hc|]. right; right. reflexivity.
      * exists h0. split; [now apply Hplain|now left].
  - exists h0. split; [now apply Hplain|now left].
Qed.

(** C2: on an uncommitted response with no Content-Encoding, compression
    enabled and an encoding applied by the negotiator, [Send] sets
    Content-Encoding to the negotiated name and changes no other header
    (Content-Length stays as the caller left it), commits with the given
    status, and hands the compressed buffer, not the content, to the
    writer in one [Write] (none when the buffer is empty). *)
Theorem Send_compressed (st : Z) (content : bytes) (ctx : Context)
  (n : string) (buf : bytes) :
  committed (W ctx) = false ->
  Get (Response_Header (W ctx)) HeaderContentEncoding = "" ->
  enableGzip ctx = true ->
  WriteBody (ParseEncoding (R ctx)) content = (true, n, buf) ->
  let h0 := Response_Header (W ctx) in
  let h1 := Set_ HeaderContentEncoding n h0 in
  let ctx' := (send st content ctx).1 in
  Get h1 HeaderContentEncoding = n
  /\ (forall k, k <> HeaderContentEncoding -> h1 !! k = h0 !! k)
  /\ Get h1 HeaderContentLength = Get h0 HeaderContentLength
  /\ Response_Header (W ctx') = beforeWriteHeader h1
  /\ calls (writer (W ctx')) =
       calls (writer (W ctx)) ++
         CallWriteHeader st (beforeWriteHeader h1) ::
         match buf with EmptyString => [] | _ => [CallWrite buf] end
  /\ committed (W ctx') = true
  /\ status (W ctx') = st.
Proof.
  intros Hc Hce Hgz Hwb h0 h1 ctx'.
  split; [apply Get_Set_eq|].
  split; [intros k Hk; now apply lookup_Set_ne|].
  split; [now apply Get_Set_ne|].
  assert (Hs : send st content ctx =
               copy buf (WriteHeader st (with_Header (Set_ HeaderContentEncoding n) ctx))).
  { unfold Send. rewrite Hc, Hce, Hgz, Hwb. reflexivity. }
  subst ctx'. rewrite Hs.
  rewrite WriteHeader_when_fresh by exact Hc.
  unfold io_Copy_Buffer.
  destruct buf as [|c buf]; [simpl; repeat split; reflexivity|].
  replace (0 <? Z.of_nat (String.length (String c buf))) with true
    by (symmetry; apply Z.ltb_lt; simpl String.length; lia).
  unfold Response_Write.
  destruct (transport _ (String c buf)) as [m e]. cbv zeta.
  assert (Hall : forall o : outcome,
    let c' := set_W
      (mkResponse
         (mkWriter (beforeWriteHeader h1)
            (calls (writer (W ctx)) ++
               [CallWriteHeader st (beforeWriteHeader h1); CallWrite (String c buf)]))
         st (wrap64 (size (W ctx) + m)) true) ctx in
    Response_Header (W (c', o).1) = beforeWriteHeader h1
    /\ calls (writer (W (c', o).1)) =
         calls (writer (W ctx)) ++
           [CallWriteHeader st (beforeWriteHeader h1); CallWrite (String c buf)]
    /\ committed (W (c', o).1) = true /\ status (W (c', o).1) = st).
  { intros o; simpl; repeat split; reflexivity. }
  simpl. rewrite <- app_assoc. simpl.
  destruct (Z.of_nat (S (String.length buf)) <? m); [apply Hall|].
  destruct e; [apply Hall|].
  destruct (m =? Z.of_nat (S (String.length buf))); apply Hall.
Qed.

(** C4: on an uncommitted response with no Content-Encoding, when no
    compression is applied (it is disabled, or the negotiator applies no
    encoding), [Send] sets an unset Content-Length to the decimal numeral
    of the content's byte length and leaves a caller-set one (and every
    other header) alone; it then commits with the given status and hands
    exactly the content to the writer. *)
Theorem Send_uncompressed (st : Z) (content : bytes) (ctx : Context) :
  committed (W ctx) = false ->
  Get (Response_Header (W ctx)) HeaderContentEncoding = "" ->
  (enableGzip ctx = false \/ (WriteBody (ParseEncoding (R ctx)) content).1.1 = false) ->
  let h0 := Response_Header (W ctx) in
  let len := strconv.Itoa (Z.of_nat (String.length content)) in
  let h1 := if String.eqb (Get h0 HeaderContentLength) "" then
              Set_ HeaderContentLength len h0
            else h0 in
  let h := beforeWriteHeader h1 in
  let res := transport (mkWriter h (calls (writer (W ctx)) ++ [CallWriteHeader st h]))
                       content in
  send st content ctx =
    (set_W (mkResponse
              (mkWriter h (calls (writer (W ctx)) ++
                             [CallWriteHeader st h; CallWrite content]))
              st (wrap64 (size (W ctx) + res.1)) true) ctx,
     Return res.2)
  /\ (Get h0 HeaderContentLength = "" ->
      Get h1 HeaderContentLength = len
      /\ forall k, k <> HeaderContentLength -> h1 !! k = h0 !! k)
  /\ (Get h0 HeaderContentLength <> "" -> h1 = h0)
  /\ strconv.all_digits len = true
  /\ strconv.decimal_value len = Z.of_nat (String.length content).
Proof.
  intros Hc Hce Hno h0 len h1 h res.
  split; [|split; [|split]].
  - assert (Hnone :
      (if enableGzip ctx then
         let encoding := ParseEncoding (R ctx) in
         let '(b, n, buf) := WriteBody encoding content in
         if b then Some (n, buf) else None
       else None) = None).
    { destruct Hno as [Hgz|Hwb]; [now rewrite Hgz|].
      destruct (enableGzip ctx); [|reflexivity]. cbv zeta.
      destruct (WriteBody (ParseEncoding (R ctx)) content) as [[b n] buf].
      simpl in Hwb. now rewrite Hwb. }
    cbv zeta in Hnone.
    unfold Send. rewrite Hc, Hce. cbv zeta. rewrite Hnone.
    change (String.eqb "" "") with true. cbv iota.
    fold h0. fold len.
    destruct (String.eqb (Get h0 HeaderContentLength) "") eqn:Hcl.
    + apply (commit_and_write_fresh st content
               (with_Header (Set_ HeaderContentLength len) ctx) Hc).
    + apply (commit_and_write_fresh st content ctx Hc).
  - intros Hcl. subst h1. rewrite Hcl. change (String.eqb "" "") with true. cbv iota.
    split; [apply Get_Set_eq|]. intros k Hk. now apply lookup_Set_ne.
  - intros Hcl. subst h1. apply String.eqb_neq in Hcl. now rewrite Hcl.
  - apply Itoa_decimal. lia.
Qed.

End SendProperties.

(** C3: on an uncommitted response whose Content-Encoding the caller has
    set, [Send] commits with the given status and hands the content itself
    to the writer, with no header changed; the resulting response and the
    returned error are the same for every negotiator, every request and
    either setting of compression. *)
Theorem Send_skips_negotiation
  (transport : ResponseWriter -> bytes -> Z * option error)
  (beforeWriteHeader : Header -> Header)
  (st : Z) (content : bytes) (resp : Response) :
  committed resp = false ->
  Get (Response_Header resp) HeaderContentEncoding <> "" ->
  let h := beforeWriteHeader (Response_Header resp) in
  let res := transport (mkWriter h (calls (writer resp) ++ [CallWriteHeader st h])) content in
  let resp' := mkResponse
                 (mkWriter h (calls (writer resp) ++ [CallWriteHeader st h; CallWrite content]))
                 st (wrap64 (size resp + res.1)) true in
  forall (ParseEncoding : Request -> string)
         (WriteBody : string -> bytes -> bool * string * bytes)
         (req : Request) (gz : bool) (mode : string) (lg : list LogEntry),
    Send transport beforeWriteHeader ParseEncoding WriteBody st content
         (mkContext resp req gz mode lg)
    = (mkContext resp' req gz mode lg, Return res.2).
Proof.
  intros Hc Hce h res resp' PE WB req gz mode lg.
  apply (Send_encoding_set transport beforeWriteHeader PE WB st content
           (mkContext resp req gz mode lg) Hc Hce).
Qed.

(** The three branches of [Send], run. *)

Lemma Send_compressed_witness :
  calls (writer (W (Send transport_ok no_hook sample_ParseEncoding sample_WriteBody
                         200 "hello" (fresh_context true)).1))
  = [CallWriteHeader 200 (Set_ HeaderContentEncoding "gzip" ∅); CallWrite "<gz>hello"].
Proof.
  pose proof (Send_compressed transport_ok no_hook sample_ParseEncoding sample_WriteBody
                200 "hello" (fresh_context true) "gzip" "<gz>hello"
                eq_refl eq_refl eq_refl eq_refl) as H.
  cbv zeta in H. destruct H as (_ & _ & _ & _ & Hcalls & _). exact Hcalls.
Defined.

Lemma Send_uncompressed_witness :
  Send transport_ok no_hook sample_ParseEncoding sample_WriteBody
       200 "hello" (fresh_context false)
  = (mkContext
       (mkResponse
          (mkWriter (Set_ HeaderContentLength "5" ∅)
             [CallWriteHeader 200 (Set_ HeaderContentLength "5" ∅); CallWrite "hello"])
          200 5 true)
       gzip_request false "dev" [],
     Return None).
Proof.
  pose proof (Send_uncompressed transport_ok no_hook sample_ParseEncoding sample_WriteBody
                200 "hello" (fresh_context false)
                eq_refl eq_refl (or_introl eq_refl)) as H.
  cbv zeta in H. destruct H as (Hsend & _). exact Hsend.
Defined.

Lemma Send_skips_negotiation_witness :
  Send transport_ok no_hook sample_ParseEncoding sample_WriteBody 200 "hello"
       (mkContext (mkResponse (mkWriter (Set_ HeaderContentEncoding "br" ∅) []) 0 0 false)
                  gzip_request true "dev" [])
  = (mkContext
       (mkResponse
          (mkWriter (Set_ HeaderContentEncoding "br" ∅)
             [CallWriteHeader 200 (Set_ HeaderContentEncoding "br" ∅); CallWrite "hello"])
          200 5 true)
       gzip_request true "dev" [],
     Return None).
Proof.
  apply (Send_skips_negotiation transport_ok no_hook 200 "hello"
           (mkResponse (mkWriter (Set_ HeaderContentEncoding "br" ∅) []) 0 0 false)
           eq_refl).
  vm_compute. discriminate.
Defined.

(** ** Cookies *)

Lemma get_Replace r i s :
  String.get i (gostrings.Replace r s) = gostrings.lookup_byte r <$> String.get i s.
Proof.
  revert i. induction s as [|c s IH]; intros i; simpl; [reflexivity|].
  destruct i; simpl; [reflexivity|apply IH].
Qed.

Lemma length_Replace r s : String.length (gostrings.Replace r s) = String.length s.
Proof. induction s as [|c s IH]; simpl; [reflexivity|now rewrite IH]. Qed.

Lemma name_sanitizer_byte c :
  gostrings.lookup_byte cookieNameSanitizer c <> CR
  /\ gostrings.lookup_byte cookieNameSanitizer c <> LF.
Proof.
  unfold cookieNameSanitizer; simpl.
  destruct (Ascii.eqb_spec c LF) as [->|Hlf]; [split; discriminate|].
  destruct (Ascii.eqb_spec c CR) as [->|Hcr]; [split; discriminate|].
  split; assumption.
Qed.

Lemma value_sanitizer_byte c :
  let c' := gostrings.lookup_byte cookieValueSanitizer c in
  c' <> CR /\ c' <> LF /\ c' <> ";"%char
  /\ (c = ";"%char -> c' = " "%char)
  /\ (c <> CR -> c <> LF -> c <> ";"%char -> c' = c).
Proof.
  unfold cookieValueSanitizer; simpl.
  destruct (Ascii.eqb_spec c LF) as [->|Hlf];
    [repeat split; try discriminate; intros; congruence|].
  destruct (Ascii.eqb_spec c CR) as [->|Hcr];
    [repeat split; try discriminate; intros; congruence|].
  destruct (Ascii.eqb_spec c ";"%char) as [->|Hsc];
    [repeat split; try discriminate; intros; congruence|].
  repeat split; auto; intros; congruence.
Qed.

Section CookieProperties.

Variable expiresAfter : Z -> string.

Local Abbreviation cookie := (cookieString expiresAfter).

(** C5, as the code has it: the cookie string carries, between the
    max-age and the domain attributes, [; Path=/] when fewer than two
    optional arguments are given, [; Path=] and the sanitized value when the
    second one is a non-empty string, and no Path attribute when the second
    one is given but is an empty string or not a string. *)
Theorem SetCookie_path_attribute (name value : string) (others : list any) :
  cookie name value others =
    (cookiePair name value +:+ maxAgeAttr expiresAfter others)
      +:+ pathAttr others
      +:+ (domainAttr others +:+ secureAttr others +:+ httpOnlyAttr others)
  /\ ((length others <= 1)%nat -> pathAttr others = "; Path=/")
  /\ (forall v, others !! 1%nat = Some (Str v) -> v <> "" ->
        pathAttr others = "; Path=" +:+ sanitizeValue v)
  /\ (forall x, others !! 1%nat = Some x -> (x = Str "" \/ forall v, x <> Str v) ->
        pathAttr others = "").
Proof.
  split; [unfold cookieString; now rewrite !append_assoc|].
  unfold pathAttr. split; [|split].
  - intros Hlen. now rewrite (lookup_ge_None_2 others 1%nat) by lia.
  - intros v -> Hv. destruct v; [congruence|reflexivity].
  - intros x -> [->|Hx]; [reflexivity|].
    destruct x; try reflexivity. now destruct (Hx v).
Qed.

(** C6: the cookie string opens with the sanitized name, [=] and the
    sanitized value; the sanitized name holds no CR or LF, the sanitized
    value no CR, LF or [;]; the value keeps its length, each [;] of it has
    become one space, and every byte other than CR, LF and [;] is kept. *)
Theorem SetCookie_sanitizes (name value : string) (others : list any) :
  (exists attrs,
      cookie name value others = sanitizeName name +:+ "=" +:+ sanitizeValue value +:+ attrs)
  /\ (forall i c, String.get i (sanitizeName name) = Some c -> c <> CR /\ c <> LF)
  /\ (forall i c, String.get i (sanitizeValue value) = Some c ->
        c <> CR /\ c <> LF /\ c <> ";"%char)
  /\ String.length (sanitizeValue value) = String.length value
  /\ (forall i, String.get i value = Some ";"%char ->
        String.get i (sanitizeValue value) = Some " "%char)
  /\ (forall i c, String.get i value = Some c -> c <> CR -> c <> LF -> c <> ";"%char ->
        String.get i (sanitizeValue value) = Some c).
Proof.
  split; [|split; [|split; [|split; [|split]]]].
  - eexists. unfold cookieString, cookiePair. rewrite !append_assoc. reflexivity.
  - intros i c. unfold sanitizeName. rewrite get_Replace.
    destruct (String.get i name) as [c0|]; simpl; [|discriminate].
    intros [= <-]. apply name_sanitizer_byte.
  - intros i c. unfold sanitizeValue. rewrite get_Replace.
    destruct (String.get i value) as [c0|]; simpl; [|discriminate].
    intros [= <-]. pose proof (value_sanitizer_byte c0) as H. cbv zeta in H. tauto.
  - apply length_Replace.
  - intros i Hi. unfold sanitizeValue. rewrite get_Replace, Hi. reflexivity.
  - intros i c Hi Hcr Hlf Hsc. unfold sanitizeValue. rewrite get_Replace, Hi. simpl.
    f_equal. pose proof (value_sanitizer_byte c) as H. cbv zeta in H.
    now apply H.
Qed.

End CookieProperties.

(** C10: [Context.SetCookie] appends its cookie string to the Set-Cookie
    values and changes nothing else of the response: the values already
    there stay, in order, and every other header is as it was; so
    [SetSecureCookie] appends too, and successive calls add one value each.
    [Response.AddCookie] appends likewise, while [Response.SetCookie] leaves
    its cookie as the only value and [Response.DelCookie] leaves none. *)
Theorem SetCookie_appends (expiresAfter : Z -> string) (now_UnixNano : Z) (ctx : Context) :
  let before := values (Response_Header (W ctx)) HeaderSetCookie in
  (forall name value others,
      let ctx' := SetCookie expiresAfter name value others ctx in
      values (Response_Header (W ctx')) HeaderSetCookie
        = before ++ [cookieString expiresAfter name value others]
      /\ (forall k, k <> HeaderSetCookie ->
            Response_Header (W ctx') !! k = Response_Header (W ctx) !! k)
      /\ ctx' = with_Header (fun _ => Response_Header (W ctx')) ctx)
  /\ (forall secret name value others,
        values (Response_Header
                  (W (SetSecureCookie expiresAfter now_UnixNano secret name value others ctx)))
               HeaderSetCookie
        = before ++ [cookieString expiresAfter name
                       (secureCookieValue now_UnixNano secret value) others])
  /\ (forall cs,
        values (Response_Header (W (SetCookies expiresAfter cs ctx))) HeaderSetCookie
        = before ++ map (fun c => cookieString expiresAfter c.1.1 c.1.2 c.2) cs)
  /\ (forall cs,
        length (values (Response_Header (W (SetCookies expiresAfter cs ctx))) HeaderSetCookie)
        = (length before + length cs)%nat)
  /\ (forall c,
        values (Response_Header (Response_AddCookie c (W ctx))) HeaderSetCookie = before ++ [c]
        /\ values (Response_Header (Response_SetCookie c (W ctx))) HeaderSetCookie = [c])
  /\ values (Response_Header (Response_DelCookie (W ctx))) HeaderSetCookie = [].
Proof.
  intros before.
  assert (Hone : forall name value others c0,
    values (Response_Header (W (SetCookie expiresAfter name value others c0))) HeaderSetCookie
    = values (Response_Header (W c0)) HeaderSetCookie
        ++ [cookieString expiresAfter name value others]).
  { intros. unfold SetCookie, with_Header, Response_Header. simpl. apply values_Add_eq. }
  assert (Hmany : forall cs c0,
    values (Response_Header (W (SetCookies expiresAfter cs c0))) HeaderSetCookie
    = values (Response_Header (W c0)) HeaderSetCookie
        ++ map (fun c => cookieString expiresAfter c.1.1 c.1.2 c.2) cs).
  { induction cs as [|c cs IH]; intros c0; simpl.
    - now rewrite app_nil_r.
    - unfold SetCookies in *. simpl. rewrite IH, Hone. now rewrite <- app_assoc. }
  split; [|split; [|split; [|split; [|split]]]].
  - intros name value others ctx'. split; [apply Hone|]. split.
    + intros k Hk. subst ctx'. unfold SetCookie, with_Header, Response_Header. simpl.
      now apply lookup_Add_ne.
    + reflexivity.
  - intros. unfold SetSecureCookie. apply Hone.
  - intros cs. apply Hmany.
  - intros cs. rewrite Hmany. now rewrite length_app, length_map.
  - intros c. unfold Response_AddCookie, Response_SetCookie, on_Header, Response_Header.
    simpl. split; [apply values_Add_eq|apply values_Set_eq].
  - unfold Response_DelCookie, on_Header, Response_Header. simpl. apply values_Del_eq.
Qed.

Lemma SetCookie_appends_witness :
  values (Response_Header
            (W (SetCookie sample_expiresAfter "b" "2" []
                  (SetCookie sample_expiresAfter "a" "1" [] (fresh_context false)))))
         HeaderSetCookie
  = ["a=1; Path=/"; "b=2; Path=/"].
Proof.
  destruct (SetCookie_appends sample_expiresAfter 0
              (SetCookie sample_expiresAfter "a" "1" [] (fresh_context false)))
    as (H & _).
  destruct (H "b" "2" []) as (Hv & _). exact Hv.
Defined.

(** ** The signed cookie *)

Lemma length_be_bytes n x : length (sha1.be_bytes n x) = n.
Proof. induction n as [|n IH]; simpl; [reflexivity|now rewrite IH]. Qed.

Lemma length_string_of_list_ascii l :
  String.length (string_of_list_ascii l) = length l.
Proof. induction l as [|c l IH]; simpl; [reflexivity|now rewrite IH]. Qed.

Lemma sha1_Sum_length data : String.length (sha1.Sum data) = sha1.Size.
Proof.
  unfold sha1.Sum.
  destruct (sha1.blocks _ sha1.init _) as [[[[h0 h1] h2] h3] h4].
  rewrite length_string_of_list_ascii, length_map, !length_app, !length_be_bytes.
  reflexivity.
Qed.

Lemma hmac_Sum_length key message :
  String.length (hmac.Sum_sha1 key message) = sha1.Size.
Proof. unfold hmac.Sum_sha1. apply sha1_Sum_length. Qed.

Lemma nibble_in_table v :
  String.index 0 (String (hex.nibble v) "") hex.hextable <> None.
Proof.
  unfold hex.nibble.
  destruct (Z.to_nat (v mod 16)) as [|[|[|[|[|[|[|[|[|[|[|[|[|[|[|[|n]]]]]]]]]]]]]]]];
    vm_compute; discriminate.
Qed.

Lemma hex_lower_case b : gostrings.all_in hex.hextable (hex.EncodeToString b) = true.
Proof.
  induction b as [|c b IH]; [reflexivity|].
  cbn [hex.EncodeToString gostrings.all_in].
  pose proof (nibble_in_table (byte_val c / 16)) as H1.
  pose proof (nibble_in_table (byte_val c)) as H2.
  destruct (String.index 0 (String (hex.nibble (byte_val c / 16)) "") hex.hextable);
    [|congruence].
  destruct (String.index 0 (String (hex.nibble (byte_val c)) "") hex.hextable);
    [|congruence].
  exact IH.
Qed.

Lemma hex_length b :
  String.length (hex.EncodeToString b) = (2 * String.length b)%nat.
Proof. induction b as [|c b IH]; simpl; [reflexivity|]. rewrite IH. lia. Qed.

(** C8: [SetSecureCookie] is [SetCookie] on the same name and remaining
    arguments, with as value the base64url encoding of the value, the clock's
    nanosecond reading in decimal, and the HMAC-SHA1, keyed by the secret,
    of the first followed by the second, written as 40 lower-case hex digits,
    the three joined by [|]. *)
Theorem SetSecureCookie_value (expiresAfter : Z -> string) (now_UnixNano : Z)
  (secret name value : string) (others : list any) (ctx : Context) :
  let vs := base64.EncodeToString value in
  let timestamp := strconv.FormatInt now_UnixNano in
  let sig := hex.EncodeToString (hmac.Sum_sha1 secret (vs +:+ timestamp)) in
  SetSecureCookie expiresAfter now_UnixNano secret name value others ctx
    = SetCookie expiresAfter name (vs +:+ "|" +:+ timestamp +:+ "|" +:+ sig) others ctx
  /\ String.length sig = 40%nat
  /\ gostrings.all_in "0123456789abcdef" sig = true
  /\ (0 <= now_UnixNano ->
      strconv.all_digits timestamp = true
      /\ strconv.decimal_value timestamp = now_UnixNano).
Proof.
  intros vs timestamp sig.
  split; [|split; [|split]].
  - unfold SetSecureCookie, secureCookieValue. fold vs. fold timestamp.
    f_equal. simpl gostrings.Join. unfold Sprintf_02x. fold sig.
    pose proof (hmac_Sum_length secret (vs +:+ timestamp)) as Hl.
    destruct (hmac.Sum_sha1 secret (vs +:+ timestamp)); [discriminate Hl|reflexivity].
  - subst sig. rewrite hex_length, hmac_Sum_length. reflexivity.
  - apply hex_lower_case.
  - intros Hnow. apply (Itoa_decimal now_UnixNano Hnow).
Qed.

Lemma SetSecureCookie_value_witness :
  strconv.decimal_value (strconv.FormatInt 1479000000000000000) = 1479000000000000000.
Proof.
  destruct (SetSecureCookie_value sample_expiresAfter 1479000000000000000
              "secret" "sid" "hello" [] (fresh_context false)) as (_ & _ & _ & H).
  apply H. lia.
Defined.

Example secure_cookie_hello :
  values (Response_Header
            (W (SetSecureCookie sample_expiresAfter 1479000000000000000
                  "secret" "sid" "hello" [] (fresh_context false)))) HeaderSetCookie
  = ["sid=aGVsbG8=|1479000000000000000|"
       +:+ hex.EncodeToString (hmac.Sum_sha1 "secret" "aGVsbG8=1479000000000000000")
       +:+ "; Path=/"].
Proof. vm_compute. reflexivity. Qed.

(** C5, as the claim has it, fails: with an empty string (or [nil]) in the
    path position the emitted Set-Cookie value has no Path attribute; and a
    path is not emitted as given when it holds a [;]. *)
Lemma SetCookie_empty_path_has_no_Path :
  values (Response_Header
            (W (SetCookie sample_expiresAfter "sid" "abc" [Int 0; Str ""]
                          (fresh_context false)))) HeaderSetCookie = ["sid=abc"]
  /\ gostrings.Contains (cookieString sample_expiresAfter "sid" "abc" [Int 0; Str ""])
                        "; Path=" = false
  /\ gostrings.Contains (cookieString sample_expiresAfter "sid" "abc" [Int 0; Nil])
                        "; Path=" = false
  /\ cookieString sample_expiresAfter "sid" "abc" [Int 0; Str "/a;b"]
     = "sid=abc; Path=/a b".
Proof. vm_compute. repeat split; reflexivity. Qed.

Lemma SetCookie_path_attribute_witness :
  pathAttr [Int 3600] = "; Path=/"
  /\ pathAttr [Int 3600; Str "/a;b"] = "; Path=/a b"
  /\ pathAttr [Int 3600; Nil; Str "example.org"] = "".
Proof.
  destruct (SetCookie_path_attribute sample_expiresAfter "sid" "abc" [Int 3600])
    as (_ & H1 & _).
  destruct (SetCookie_path_attribute sample_expiresAfter "sid" "abc" [Int 3600; Str "/a;b"])
    as (_ & _ & H2 & _).
  destruct (SetCookie_path_attribute sample_expiresAfter "sid" "abc"
              [Int 3600; Nil; Str "example.org"]) as (_ & _ & _ & H3).
  split; [apply H1; simpl; lia|].
  split; [apply (H2 "/a;b" eq_refl); discriminate|].
  apply (H3 Nil eq_refl). right. intros v. discriminate.
Defined.

Lemma SetCookie_sanitizes_witness :
  String.get 1 (sanitizeValue "a;b") = Some " "%char.
Proof.
  destruct (SetCookie_sanitizes sample_expiresAfter "sid" "a;b" []) as (_ & _ & _ & _ & H & _).
  apply H. reflexivity.
Defined.

Example cookie_full :
  cookieString sample_expiresAfter (String "s" (String CR "id")) "a;b"
    [Int64 60; Str "/app"; Str "example.org"; Other; Boolean true]
  = "s-id=a b; Expires=Thu, 01 Jan 2026 00:00:00 UTC; Max-Age=60; Path=/app; Domain=example.org; Secure; HttpOnly".
Proof. vm_compute. reflexivity. Qed.

Example cookie_expired :
  cookieString sample_expiresAfter "sid" "abc" [Int (-1)] = "sid=abc; Max-Age=0; Path=/".
Proof. vm_compute. reflexivity. Qed.

(** ** The senders that marshal *)

Section SerializerProperties.

Variable transport : ResponseWriter -> bytes -> Z * option error.
Variable beforeWriteHeader : Header -> Header.
Variable ParseEncoding : Request -> string.
Variable WriteBody : string -> bytes -> bool * string * bytes.
Variable Data : Type.
Variable json_Marshal : Data -> bytes * option error.
Variable json_MarshalIndent : Data -> string -> string -> bytes * option error.
Variable xml_Marshal : Data -> bytes * option error.
Variable xml_MarshalIndent : Data -> string -> string -> bytes * option error.
Variable JSEscapeString : string -> string.
Variable RUNMODE_PROD : string.

Local Abbreviation send := (Send transport beforeWriteHeader ParseEncoding WriteBody).
Local Abbreviation marshal :=
  (marshal_call Data json_Marshal json_MarshalIndent xml_Marshal xml_MarshalIndent
                RUNMODE_PROD).
Local Abbreviation sender :=
  (serialize transport beforeWriteHeader ParseEncoding WriteBody Data
             json_Marshal json_MarshalIndent xml_Marshal xml_MarshalIndent
             JSEscapeString RUNMODE_PROD).
Local Abbreviation jsonp :=
  (JSONP transport beforeWriteHeader ParseEncoding WriteBody Data
         json_Marshal json_MarshalIndent JSEscapeString RUNMODE_PROD).

(** C7: when its marshal call fails, each of [JSON], [JSONP] and [XML]
    returns that error and leaves the context exactly as it was: no header
    set, nothing asked of the writer, the commit flag untouched; a [Send]
    that follows is the [Send] the caller would have made without the
    failed call. *)
Theorem marshal_error_leaves_response (s : Sender) (st : Z) (data : Data)
  (ctx : Context) (err : error) :
  (marshal s ctx data).2 = Some err ->
  sender s st data ctx = (ctx, Return (Some err))
  /\ committed (W (sender s st data ctx).1) = committed (W ctx)
  /\ calls (writer (W (sender s st data ctx).1)) = calls (writer (W ctx))
  /\ Response_Header (W (sender s st data ctx).1) = Response_Header (W ctx)
  /\ forall st' content,
       send st' content (sender s st data ctx).1 = send st' content ctx.
Proof.
  intros Herr.
  assert (H : sender s st data ctx = (ctx, Return (Some err))).
  { destruct s as [|cb|]; simpl in *; unfold JSON, JSONP, XML;
      match goal with
      | H : (?m).2 = Some _ |- _ => destruct m as [b e]; simpl in H; subst e
      end; reflexivity. }
  rewrite H. repeat split; reflexivity.
Qed.

(** C9: when the marshal call succeeds with bytes [b] (from
    [MarshalIndent] with a two-space indent outside production mode, from
    [Marshal] in it), [JSONP] sets Content-Type to
    [application/javascript; charset=utf-8] and sends, with the given
    status, a space, [if(window.], the escaped callback, [)], the escaped
    callback, [(], [b], [);], CR, LF. *)
Theorem JSONP_body (st : Z) (callback : string) (data : Data) (ctx : Context)
  (b : bytes) :
  (if String.eqb (RunMode ctx) RUNMODE_PROD then json_Marshal data
   else json_MarshalIndent data "" "  ") = (b, None) ->
  let cb := JSEscapeString callback in
  let ctx1 := with_Header (Set_ HeaderContentType "application/javascript; charset=utf-8")
                          ctx in
  jsonp st callback data ctx
    = send st (" if(window." +:+ cb +:+ ")" +:+ cb +:+ "(" +:+ b +:+ ");"
                 +:+ String CR (String LF "")) ctx1
  /\ Get (Response_Header (W ctx1)) HeaderContentType
       = "application/javascript; charset=utf-8".
Proof.
  intros Hm cb ctx1. split.
  - unfold JSONP. rewrite Hm. fold cb. cbv zeta.
    unfold MIMEApplicationJavaScriptCharsetUTF8, CRLF. fold ctx1.
    f_equal. rewrite !append_assoc. reflexivity.
  - apply Get_Set_eq.
Qed.

End SerializerProperties.

Lemma marshal_error_leaves_response_witness :
  JSON transport_ok no_hook sample_ParseEncoding sample_WriteBody SampleData
       sample_json_Marshal sample_json_MarshalIndent "prod" 200 Chan (fresh_context true)
  = (fresh_context true, Return (Some "json: unsupported type: chan int")).
Proof.
  destruct (marshal_error_leaves_response transport_ok no_hook sample_ParseEncoding
              sample_WriteBody SampleData sample_json_Marshal sample_json_MarshalIndent
              sample_xml_Marshal sample_xml_MarshalIndent sample_JSEscapeString "prod"
              ViaJSON 200 Chan (fresh_context true) "json: unsupported type: chan int"
              eq_refl) as (H & _).
  exact H.
Defined.

Lemma JSONP_body_witness :
  calls (writer (W (JSONP transport_ok no_hook sample_ParseEncoding sample_WriteBody
                          SampleData sample_json_Marshal sample_json_MarshalIndent
                          sample_JSEscapeString "prod" 200 "cb" MapA1
                          (fresh_context false)).1))
  = [CallWriteHeader 200
       (Set_ HeaderContentLength "33"
          (Set_ HeaderContentType "application/javascript; charset=utf-8" ∅));
     CallWrite (" if(window.cb)cb({" +:+ String LF "  " +:+ dquote +:+ "a" +:+ dquote
                  +:+ ": 1" +:+ String LF "});" +:+ String CR (String LF ""))].
Proof.
  destruct (JSONP_body transport_ok no_hook sample_ParseEncoding sample_WriteBody
              SampleData sample_json_Marshal sample_json_MarshalIndent
              sample_JSEscapeString "prod" 200 "cb" MapA1 (fresh_context false)
              (sample_json_MarshalIndent MapA1 "" "  ").1 eq_refl) as (H & _).
  rewrite H. vm_compute. reflexivity.
Defined.

Example JSONP_prod_compact :
  calls (writer (W (JSONP transport_ok no_hook sample_ParseEncoding sample_WriteBody
                          SampleData sample_json_Marshal sample_json_MarshalIndent
                          sample_JSEscapeString "prod" 200 "cb" MapA1
                          (mkContext (mkResponse fresh_writer 0 0 false) gzip_request
                                     false "prod" [])).1))
  = [CallWriteHeader 200
       (Set_ HeaderContentLength "28"
          (Set_ HeaderContentType "application/javascript; charset=utf-8" ∅));
     CallWrite (" if(window.cb)cb({" +:+ dquote +:+ "a" +:+ dquote +:+ ":1});"
                  +:+ String CR (String LF ""))].
Proof. vm_compute. reflexivity. Qed.

Example XML_map_fails :
  XML transport_ok no_hook sample_ParseEncoding sample_WriteBody SampleData
      sample_xml_Marshal sample_xml_MarshalIndent "prod" 200 MapA1 (fresh_context true)
  = (fresh_context true, Return (Some "xml: unsupported type: map[string]int")).
Proof. reflexivity. Qed.

(** * Further properties *)

(** ** The status classes *)

(** The classes nest and exclude each other as the HTTP status ranges do:
    OK is successful, successful and empty are cachable, forbidden and
    not-found are client errors; successful, redirect, client error and
    server error exclude each other; a response that has been reset is in
    none of the nine. *)
Theorem status_classes (ctx : Context) (w : ResponseWriter) :
  implb (IsOk ctx) (IsSuccessful ctx) = true
  /\ implb (IsSuccessful ctx) (IsCachable ctx) = true
  /\ implb (IsEmpty ctx) (IsCachable ctx) = true
  /\ implb (IsForbidden ctx) (IsClientError ctx) = true
  /\ implb (IsNotFound ctx) (IsClientError ctx) = true
  /\ IsSuccessful ctx && IsRedirect ctx = false
  /\ IsSuccessful ctx && IsClientError ctx = false
  /\ IsSuccessful ctx && IsServerError ctx = false
  /\ IsRedirect ctx && IsClientError ctx = false
  /\ IsRedirect ctx && IsServerError ctx = false
  /\ IsClientError ctx && IsServerError ctx = false
  /\ (let fresh := set_W (reset w (W ctx)) ctx in
      IsCachable fresh || IsEmpty fresh || IsOk fresh || IsSuccessful fresh
      || IsRedirect fresh || IsForbidden fresh || IsNotFound fresh
      || IsClientError fresh || IsServerError fresh = false).
Proof.
  unfold IsOk, IsSuccessful, IsCachable, IsEmpty, IsForbidden, IsNotFound,
    IsClientError, IsServerError, IsRedirect.
  repeat split; try reflexivity;
    generalize (status (W ctx)); intros st;
    repeat match goal with
           | |- context [?a <=? ?b] => destruct (Z.leb_spec a b)
           | |- context [?a <? ?b] => destruct (Z.ltb_spec a b)
           | |- context [?a =? ?b] => destruct (Z.eqb_spec a b)
           end; simpl; try reflexivity; lia.
Qed.

(** ** More of the commit state machine *)

Section CommitProperties.

Variable transport : ResponseWriter -> bytes -> Z * option error.
Variable beforeWriteHeader : Header -> Header.
Variable ParseEncoding : Request -> string.
Variable WriteBody : string -> bytes -> bool * string * bytes.

Local Abbreviation WriteHeader := (Response_WriteHeader beforeWriteHeader).
Local Abbreviation Write := (Response_Write transport).
Local Abbreviation send := (Send transport beforeWriteHeader ParseEncoding WriteBody).
Local Abbreviation run := (perform transport beforeWriteHeader ParseEncoding WriteBody).
Local Abbreviation run_all :=
  (perform_all transport beforeWriteHeader ParseEncoding WriteBody).

Lemma perform_when_committed c ctx :
  committed (W ctx) = true ->
  W (run c ctx).1 = W ctx
  /\ log (run c ctx).1 =
       log ctx ++ (if is_DoWriteHeader c
                   then [LogWarning "multiple response.WriteHeader calls"] else []).
Proof.
  intros Hc. destruct c as [st|st content]; simpl.
  - rewrite (WriteHeader_when_committed beforeWriteHeader st ctx Hc). split; reflexivity.
  - rewrite (Send_when_committed transport beforeWriteHeader ParseEncoding WriteBody
               st content ctx Hc).
    simpl. now rewrite app_nil_r.
Qed.

(** Once a response is committed, any number of further [WriteHeader] and
    [Send] calls leave it as the first one left it (status, size, headers
    and what the writer was asked), and the log gains one warning for each
    [WriteHeader] among them and nothing else. *)
Theorem commit_is_final (ctx : Context) (c : CommitCall) (cs : list CommitCall) :
  let ctx1 := (run c ctx).1 in
  let ctx2 := run_all cs ctx1 in
  W ctx2 = W ctx1
  /\ Response_Status (W ctx2) = Response_Status (W ctx1)
  /\ log ctx2 =
       log ctx1 ++ repeat (LogWarning "multiple response.WriteHeader calls")
                          (length (filter (fun x => is_DoWriteHeader x = true) cs)).
Proof.
  intros ctx1 ctx2.
  pose proof (perform_commits transport beforeWriteHeader ParseEncoding WriteBody c ctx)
    as Hc. fold ctx1 in Hc.
  assert (H : forall cs c0, committed (W c0) = true ->
            W (run_all cs c0) = W c0
            /\ log (run_all cs c0) =
                 log c0 ++ repeat (LogWarning "multiple response.WriteHeader calls")
                             (length (filter (fun x => is_DoWriteHeader x = true) cs))).
  { clear. induction cs as [|c cs IH]; intros c0 H0.
    - simpl. now rewrite app_nil_r.
    - unfold perform_all in *. simpl fold_left.
      destruct (perform_when_committed c c0 H0) as [HW Hl].
      destruct (IH (run c c0).1) as [HW' Hl']; [now rewrite HW|].
      split; [now rewrite HW', HW|].
      rewrite Hl', Hl, <- app_assoc. f_equal.
      rewrite filter_cons. destruct c; simpl; reflexivity. }
  destruct (H cs ctx1 Hc) as [HW Hl].
  split; [exact HW|]. split; [unfold Response_Status; f_equal; exact HW|exact Hl].
Qed.

(** [Write] does not commit: on an uncommitted response it leaves the flag
    and the stored status as they were, so that a [WriteHeader] after it is
    not refused: the writer is asked for the body bytes first and the status
    line second, and no warning is logged. *)
Theorem Write_does_not_commit (b : bytes) (st : Z) (ctx : Context) :
  committed (W ctx) = false ->
  let ctx1 := (Write b ctx).1 in
  let ctx2 := WriteHeader st ctx1 in
  Response_Committed (W ctx1) = false
  /\ Response_Status (W ctx1) = Response_Status (W ctx)
  /\ calls (writer (W ctx2)) =
       calls (writer (W ctx)) ++
         [CallWrite b; CallWriteHeader st (beforeWriteHeader (Response_Header (W ctx)))]
  /\ log ctx2 = log ctx.
Proof.
  intros Hc ctx1 ctx2. subst ctx2 ctx1.
  unfold Response_Write, Response_Committed, Response_Status.
  destruct (transport (writer (W ctx)) b) as [n e]. simpl.
  unfold Response_WriteHeader. simpl. rewrite Hc. simpl.
  repeat split; try reflexivity. now rewrite <- app_assoc.
Qed.

End CommitProperties.

Lemma Write_does_not_commit_witness :
  calls (writer (W (Response_WriteHeader no_hook 404
                      (Response_Write transport_ok "oops" (fresh_context false)).1)))
  = [CallWrite "oops"; CallWriteHeader 404 ∅].
Proof.
  destruct (Write_does_not_commit transport_ok no_hook "oops" 404 (fresh_context false)
              eq_refl) as (_ & _ & H & _).
  exact H.
Defined.

(** ** The byte count *)

Lemma wrap64_small z : - 2 ^ 63 <= z < 2 ^ 63 -> wrap64 z = z.
Proof. intros Hz. unfold wrap64. rewrite Z.mod_small; lia. Qed.

Lemma wrap64_add_l a b : wrap64 (wrap64 a + b) = wrap64 (a + b).
Proof.
  unfold wrap64.
  replace ((a + 2 ^ 63) mod 2 ^ 64 - 2 ^ 63 + b + 2 ^ 63)
    with ((a + 2 ^ 63) mod 2 ^ 64 + b) by lia.
  rewrite Zplus_mod_idemp_l. f_equal. f_equal. lia.
Qed.

Lemma total_length_nonneg bs : 0 <= total_length bs.
Proof. induction bs as [|b bs IH]; simpl; lia. Qed.

Lemma wrap64_range z : - 2 ^ 63 <= wrap64 z < 2 ^ 63.
Proof.
  unfold wrap64. pose proof (Z.mod_pos_bound (z + 2 ^ 63) (2 ^ 64)). lia.
Qed.

(** Over a transport that takes every byte it is given, [size] after any
    number of [Write]s is the starting size plus the bytes written, reduced
    to [int64]; so it is the exact count as long as that fits.  The writer
    receives the chunks one by one, in order, and the commit flag is not
    touched. *)
Theorem Writes_count_bytes
  (transport : ResponseWriter -> bytes -> Z * option error)
  (bs : list bytes) (ctx : Context) :
  (forall w b, (transport w b).1 = Z.of_nat (String.length b)) ->
  - 2 ^ 63 <= size (W ctx) < 2 ^ 63 ->
  let ctx' := Writes transport bs ctx in
  Response_Size (W ctx') = wrap64 (size (W ctx) + total_length bs)
  /\ (size (W ctx) + total_length bs < 2 ^ 63 ->
      Response_Size (W ctx') = size (W ctx) + total_length bs)
  /\ calls (writer (W ctx')) = calls (writer (W ctx)) ++ map CallWrite bs
  /\ committed (W ctx') = committed (W ctx).
Proof.
  intros Ht Hr ctx'.
  assert (H : forall l c0,
    - 2 ^ 63 <= size (W c0) < 2 ^ 63 ->
    size (W (Writes transport l c0)) = wrap64 (size (W c0) + total_length l)
    /\ calls (writer (W (Writes transport l c0))) = calls (writer (W c0)) ++ map CallWrite l
    /\ committed (W (Writes transport l c0)) = committed (W c0)).
  { clear ctx ctx' Hr. induction l as [|b l IH]; intros c0 H0.
    - unfold Writes, total_length. cbn [fold_left fold_right map].
      rewrite Z.add_0_r, wrap64_small by exact H0.
      split; [reflexivity|]. split; [now rewrite app_nil_r|reflexivity].
    - unfold Writes in *. simpl fold_left.
      assert (Hw : (Response_Write transport b c0).1 =
                   set_W (mkResponse
                            (mkWriter (header (writer (W c0)))
                                      (calls (writer (W c0)) ++ [CallWrite b]))
                            (status (W c0))
                            (wrap64 (size (W c0) + Z.of_nat (String.length b)))
                            (committed (W c0))) c0).
      { unfold Response_Write. pose proof (Ht (writer (W c0)) b) as Hn.
        destruct (transport (writer (W c0)) b) as [n e]. simpl in Hn. now subst n. }
      rewrite Hw.
      match goal with |- context [fold_left _ l ?c] =>
        destruct (IH c) as (Hs & Hcalls & Hcm); [simpl; apply wrap64_range|] end.
      rewrite Hs, Hcalls, Hcm. simpl.
      split; [|split; [now rewrite <- app_assoc|reflexivity]].
      rewrite wrap64_add_l. f_equal. lia. }
  destruct (H bs ctx Hr) as (Hs & Hcalls & Hcm).
  unfold Response_Size. fold ctx' in Hs, Hcalls, Hcm.
  split; [exact Hs|]. split; [|split; [exact Hcalls|exact Hcm]].
  intros Hfit. rewrite Hs. apply wrap64_small.
  pose proof (total_length_nonneg bs). lia.
Qed.

Lemma Writes_count_bytes_witness :
  Response_Size (W (Writes transport_ok ["ab"; ""; "cde"] (fresh_context false))) = 5.
Proof.
  destruct (Writes_count_bytes transport_ok ["ab"; ""; "cde"] (fresh_context false))
    as (_ & H & _).
  - intros w b. reflexivity.
  - simpl. lia.
  - apply H. simpl. lia.
Defined.


(** ** More of [Send] *)

Lemma count_WriteHeader_app l1 l2 :
  count_WriteHeader (l1 ++ l2) = (count_WriteHeader l1 + count_WriteHeader l2)%nat.
Proof.
  induction l1 as [|[s0 h0|b0] l1 IH]; simpl; [reflexivity| |exact IH].
  now rewrite IH.
Qed.

Section MoreSendProperties.

Variable transport : ResponseWriter -> bytes -> Z * option error.
Variable beforeWriteHeader : Header -> Header.
Variable ParseEncoding : Request -> string.
Variable WriteBody : string -> bytes -> bool * string * bytes.

Local Abbreviation WriteHeader := (Response_WriteHeader beforeWriteHeader).
Local Abbreviation Write := (Response_Write transport).
Local Abbreviation copy := (io_Copy_Buffer transport).
Local Abbreviation send := (Send transport beforeWriteHeader ParseEncoding WriteBody).

(** What a call may change of a context: the writer's calls grow by
    [added], the header map becomes [h], the status [st], the flag [true];
    the request, the switches and the log stay. *)
Lemma Write_shape b ctx :
  exists n,
    (Write b ctx).1 =
    set_W (mkResponse (mkWriter (header (writer (W ctx)))
                                (calls (writer (W ctx)) ++ [CallWrite b]))
                      (status (W ctx)) (wrap64 (size (W ctx) + n)) (committed (W ctx))) ctx.
Proof.
  unfold Response_Write. destruct (transport (writer (W ctx)) b) as [n e].
  now exists n.
Qed.

Lemma copy_shape buf ctx :
  exists body sz,
    (copy buf ctx).1 =
    set_W (mkResponse (mkWriter (header (writer (W ctx))) (calls (writer (W ctx)) ++ body))
                      (status (W ctx)) sz (committed (W ctx))) ctx
    /\ (body = [] \/ body = [CallWrite buf]).
Proof.
  unfold io_Copy_Buffer.
  destruct (0 <? Z.of_nat (String.length buf)).
  - destruct (Write_shape buf ctx) as [n Hn].
    destruct (Write buf ctx) as [ctx' [m e]]. simpl in Hn. subst ctx'.
    exists [CallWrite buf], (wrap64 (size (W ctx) + n)).
    split; [|now right].
    destruct (Z.of_nat (String.length buf) <? m); [reflexivity|].
    destruct e; [reflexivity|].
    destruct (m =? Z.of_nat (String.length buf)); reflexivity.
  - exists [], (size (W ctx)). split; [|now left]. simpl. rewrite app_nil_r.
    destruct ctx as [[[h cs] s z c] r g m l]. reflexivity.
Qed.

Lemma Send_fresh_shape st content ctx :
  committed (W ctx) = false ->
  exists h body sz,
    (send st content ctx).1 =
    set_W (mkResponse (mkWriter h (calls (writer (W ctx)) ++ CallWriteHeader st h :: body))
                      st sz true) ctx
    /\ (body = [] \/ exists b, body = [CallWrite b]).
Proof.
  intros Hc.
  assert (Hplain : forall c0, committed (W c0) = false ->
    exists h body sz,
      (let '(c, (_, err)) := Write content (WriteHeader st c0) in (c, Return err)).1 =
      set_W (mkResponse (mkWriter h (calls (writer (W c0)) ++ CallWriteHeader st h :: body))
                        st sz true) c0
      /\ (body = [] \/ exists b, body = [CallWrite b])).
  { intros c0 H0.
    rewrite (commit_and_write_fresh transport beforeWriteHeader st content c0 H0).
    cbv zeta. do 3 eexists. split; [reflexivity|]. right. now eexists. }
  unfold Send. rewrite Hc.
  destruct (String.eqb _ ""); [|now apply Hplain].
  match goal with |- context [match ?c with Some _ => _ | None => _ end] =>
    destruct c as [[n buf]|] end.
  - rewrite (WriteHeader_when_fresh beforeWriteHeader st
               (with_Header (Set_ HeaderContentEncoding n) ctx) Hc). cbv zeta.
    match goal with |- context [copy buf ?c] =>
      destruct (copy_shape buf c) as (body & sz & Hcopy & Hbody); rewrite Hcopy end.
    simpl. do 3 eexists. split.
    + unfold set_W. simpl. rewrite <- app_assoc. reflexivity.
    + destruct Hbody as [-> | ->]; [now left|right; now eexists].
  - destruct (String.eqb (Get (Response_Header (W ctx)) HeaderContentLength) "").
    + destruct (Hplain (with_Header (Set_ HeaderContentLength
                          (strconv.Itoa (Z.of_nat (String.length content)))) ctx) Hc)
        as (h & body & sz & Hs & Hb).
      exists h, body, sz. split; [|exact Hb]. rewrite Hs. reflexivity.
    + now apply Hplain.
Qed.

(** On an uncommitted response [Send] always commits, whatever the branch
    and whatever the transport answers: the writer is asked for exactly one
    status line, with the given status, followed by at most one [Write]; the
    status is stored and the flag set; the request, the switches and the
    log are untouched. *)
Theorem Send_commits_once (st : Z) (content : bytes) (ctx : Context) :
  committed (W ctx) = false ->
  let ctx' := (send st content ctx).1 in
  (exists h body,
      calls (writer (W ctx')) = calls (writer (W ctx)) ++ CallWriteHeader st h :: body
      /\ Response_Header (W ctx') = h
      /\ (body = [] \/ exists b, body = [CallWrite b]))
  /\ count_WriteHeader (calls (writer (W ctx')))
     = S (count_WriteHeader (calls (writer (W ctx))))
  /\ Response_Status (W ctx') = st
  /\ Response_Committed (W ctx') = true
  /\ R ctx' = R ctx /\ enableGzip ctx' = enableGzip ctx
  /\ RunMode ctx' = RunMode ctx /\ log ctx' = log ctx.
Proof.
  intros Hc ctx'.
  destruct (Send_fresh_shape st content ctx Hc) as (h & body & sz & Hs & Hb).
  subst ctx'. rewrite Hs. simpl.
  split; [exists h, body; auto|].
  split; [|repeat split].
  rewrite count_WriteHeader_app. simpl.
  destruct Hb as [-> | [b ->]]; simpl; lia.
Qed.

(** The negotiator is consulted only on an uncommitted response with
    compression enabled and no Content-Encoding set: in every other case
    [Send] does the same for any two negotiators. *)
Theorem Send_negotiates_only_when_enabled (st : Z) (content : bytes) (ctx : Context) :
  committed (W ctx) = true \/ enableGzip ctx = false
    \/ Get (Response_Header (W ctx)) HeaderContentEncoding <> "" ->
  forall (PE' : Request -> string) (WB' : string -> bytes -> bool * string * bytes),
    send st content ctx = Send transport beforeWriteHeader PE' WB' st content ctx.
Proof.
  intros H PE' WB'. unfold Send.
  destruct (committed (W ctx)); [reflexivity|].
  destruct H as [H|[H|H]]; [discriminate| |].
  - rewrite H. reflexivity.
  - apply String.eqb_neq in H. rewrite H. reflexivity.
Qed.

(** The compressed branch reports the transport's answer to its one [Write]
    as [io.Copy] does: an error comes back as it is; with no error, a short
    count becomes the short-write error, although the plain branch returns
    [nil] for the same answer; a count above the buffer's
    length panics.  An empty buffer is not written at all. *)
Theorem Send_compressed_outcome (st : Z) (content : bytes) (ctx : Context)
  (n : string) (buf : bytes) :
  committed (W ctx) = false ->
  Get (Response_Header (W ctx)) HeaderContentEncoding = "" ->
  enableGzip ctx = true ->
  WriteBody (ParseEncoding (R ctx)) content = (true, n, buf) ->
  let h := beforeWriteHeader (Set_ HeaderContentEncoding n (Response_Header (W ctx))) in
  let res := transport (mkWriter h (calls (writer (W ctx)) ++ [CallWriteHeader st h])) buf in
  let len := Z.of_nat (String.length buf) in
  let r := send st content ctx in
  (buf = "" -> r.2 = Return None /\ Response_Size (W r.1) = size (W ctx))
  /\ (buf <> "" -> Response_Size (W r.1) = wrap64 (size (W ctx) + res.1))
  /\ (buf <> "" -> len < res.1 -> r.2 = Panic "bytes.Buffer.WriteTo: invalid Write count")
  /\ (buf <> "" -> res.1 <= len -> forall err, res.2 = Some err -> r.2 = Return (Some err))
  /\ (buf <> "" -> res.1 = len -> res.2 = None -> r.2 = Return None)
  /\ (buf <> "" -> res.1 < len -> res.2 = None -> r.2 = Return (Some "short write")).
Proof.
  intros Hc Hce Hgz Hwb h res len r.
  set (ctxH := set_W (mkResponse (mkWriter h (calls (writer (W ctx)) ++ [CallWriteHeader st h]))
                                 st (size (W ctx)) true) ctx).
  assert (Hs : r = copy buf ctxH).
  { subst r. unfold Send. rewrite Hc, Hce, Hgz, Hwb. cbv zeta.
    rewrite (WriteHeader_when_fresh beforeWriteHeader st
               (with_Header (Set_ HeaderContentEncoding n) ctx) Hc).
    reflexivity. }
  unfold io_Copy_Buffer in Hs. fold len in Hs.
  destruct buf as [|c buf].
  - rewrite Hs. simpl. repeat split; try reflexivity; intros; congruence.
  - assert (Hlen : (0 <? len) = true)
      by (apply Z.ltb_lt; subst len; simpl String.length; lia).
    rewrite Hlen in Hs. unfold Response_Write in Hs.
    assert (Hres : transport (writer (W ctxH)) (String c buf) = res) by reflexivity.
    rewrite Hres in Hs. clear Hres.
    destruct res as [m e]. simpl.
    split; [intros; congruence|].
    split; [intros _; rewrite Hs; destruct (len <? m); [reflexivity|];
            destruct e; [reflexivity|]; destruct (m =? len); reflexivity|].
    split; [intros _ Hm; apply Z.ltb_lt in Hm; rewrite Hs, Hm; reflexivity|].
    split; [intros _ Hm err ->; rewrite Hs;
            replace (len <? m) with false by (symmetry; apply Z.ltb_ge; lia); reflexivity|].
    split.
    + intros _ -> ->. rewrite Hs, Z.ltb_irrefl, Z.eqb_refl. reflexivity.
    + intros _ Hm ->. rewrite Hs.
      replace (len <? m) with false by (symmetry; apply Z.ltb_ge; lia).
      replace (m =? len) with false by (symmetry; apply Z.eqb_neq; lia). reflexivity.
Qed.

(** [NoContent] asks the writer for the status line and nothing else, and
    sets no header of its own; sending empty content is something else: the
    plain branch of [Send] first sets Content-Length to [0] and still makes
    a [Write], of no bytes. *)
Theorem NoContent_is_not_empty_Send (st : Z) (ctx : Context) :
  committed (W ctx) = false ->
  Get (Response_Header (W ctx)) HeaderContentEncoding = "" ->
  Get (Response_Header (W ctx)) HeaderContentLength = "" ->
  enableGzip ctx = false ->
  let h0 := Response_Header (W ctx) in
  calls (writer (W (NoContent beforeWriteHeader st ctx))) =
    calls (writer (W ctx)) ++ [CallWriteHeader st (beforeWriteHeader h0)]
  /\ Response_Size (W (NoContent beforeWriteHeader st ctx)) = size (W ctx)
  /\ calls (writer (W (send st "" ctx).1)) =
       calls (writer (W ctx)) ++
         [CallWriteHeader st (beforeWriteHeader (Set_ HeaderContentLength "0" h0));
          CallWrite ""].
Proof.
  intros Hc Hce Hcl Hgz h0.
  unfold NoContent. rewrite (WriteHeader_when_fresh beforeWriteHeader st ctx Hc).
  split; [reflexivity|]. split; [reflexivity|].
  unfold Send. rewrite Hc, Hce, Hgz, Hcl. cbv zeta.
  change (String.eqb "" "") with true. cbv iota.
  rewrite (commit_and_write_fresh transport beforeWriteHeader st ""
             (with_Header (Set_ HeaderContentLength
                (strconv.Itoa (Z.of_nat (String.length ""))) ) ctx) Hc).
  reflexivity.
Qed.

End MoreSendProperties.

Lemma Send_commits_once_witness :
  Response_Status
    (W (Send transport_broken no_hook sample_ParseEncoding sample_WriteBody
             503 "down" (fresh_context true)).1) = 503.
Proof.
  destruct (Send_commits_once transport_broken no_hook sample_ParseEncoding
              sample_WriteBody 503 "down" (fresh_context true) eq_refl)
    as (_ & _ & H & _).
  exact H.
Defined.

Lemma Send_negotiates_only_when_enabled_witness :
  Send transport_ok no_hook sample_ParseEncoding sample_WriteBody
       200 "hello" (fresh_context false)
  = Send transport_ok no_hook (fun _ => "deflate") (fun _ c => (true, "deflate", c))
         200 "hello" (fresh_context false).
Proof.
  apply (Send_negotiates_only_when_enabled transport_ok no_hook sample_ParseEncoding
           sample_WriteBody 200 "hello" (fresh_context false)).
  right. left. reflexivity.
Defined.

Lemma Send_compressed_outcome_witness :
  (Send (fun _ _ => (3, None)) no_hook sample_ParseEncoding sample_WriteBody
        200 "hello" (fresh_context true)).2 = Return (Some "short write").
Proof.
  destruct (Send_compressed_outcome (fun _ _ => (3, None)) no_hook sample_ParseEncoding
              sample_WriteBody 200 "hello" (fresh_context true) "gzip" "<gz>hello"
              eq_refl eq_refl eq_refl eq_refl) as (_ & _ & _ & _ & _ & H).
  apply H; [discriminate|simpl; lia|reflexivity].
Defined.

Lemma NoContent_is_not_empty_Send_witness :
  calls (writer (W (NoContent no_hook 204 (fresh_context false)))) = [CallWriteHeader 204 ∅].
Proof.
  destruct (NoContent_is_not_empty_Send transport_ok no_hook sample_ParseEncoding
              sample_WriteBody 204 (fresh_context false) eq_refl eq_refl eq_refl eq_refl)
    as (H & _).
  exact H.
Defined.

(** ** Never a second status line *)

Lemma commit_balance_refl ctx : commit_balance ctx ctx.
Proof.
  unfold commit_balance. split; [reflexivity|]. split.
  - now destruct (committed (W ctx)).
  - exists []. now rewrite app_nil_r.
Qed.

Lemma commit_balance_trans c1 c2 c3 :
  commit_balance c1 c2 -> commit_balance c2 c3 -> commit_balance c1 c3.
Proof.
  intros (Hk & Hf & a & Ha) (Hk' & Hf' & a' & Ha').
  unfold commit_balance. split; [lia|]. split.
  - destruct (committed (W c1)), (committed (W c2)), (committed (W c3));
      simpl in *; congruence.
  - exists (a ++ a'). now rewrite Ha', Ha, <- app_assoc.
Qed.

(** A change that leaves the writer's calls and the flag alone. *)
Lemma commit_balance_same ctx ctx' :
  calls (writer (W ctx')) = calls (writer (W ctx)) ->
  committed (W ctx') = committed (W ctx) ->
  commit_balance ctx ctx'.
Proof.
  intros Hcalls Hc. unfold commit_balance. rewrite Hcalls, Hc.
  split; [reflexivity|]. split.
  - now destruct (committed (W ctx)).
  - exists []. now rewrite app_nil_r.
Qed.

Lemma commit_balance_with_Header f ctx : commit_balance ctx (with_Header f ctx).
Proof. now apply commit_balance_same. Qed.

Section OneStatusLine.

Variable transport : ResponseWriter -> bytes -> Z * option error.
Variable beforeWriteHeader : Header -> Header.
Variable ParseEncoding : Request -> string.
Variable WriteBody : string -> bytes -> bool * string * bytes.
Variable Data : Type.
Variable json_Marshal : Data -> bytes * option error.
Variable json_MarshalIndent : Data -> string -> string -> bytes * option error.
Variable xml_Marshal : Data -> bytes * option error.
Variable xml_MarshalIndent : Data -> string -> string -> bytes * option error.
Variable JSEscapeString : string -> string.
Variable RUNMODE_PROD : string.
Variable TypeByExtension : string -> string.
Variable Sprintf : string -> list any -> string.
Variable AcceptJSON : Context -> bool.
Variable AcceptXML : Context -> bool.
Variable MIMETextHTMLCharsetUTF8 : string.
Variable expiresAfter : Z -> string.

Local Abbreviation send := (Send transport beforeWriteHeader ParseEncoding WriteBody).
Local Abbreviation step :=
  (apply_op transport beforeWriteHeader ParseEncoding WriteBody Data
            json_Marshal json_MarshalIndent xml_Marshal xml_MarshalIndent
            JSEscapeString RUNMODE_PROD TypeByExtension Sprintf
            AcceptJSON AcceptXML MIMETextHTMLCharsetUTF8 expiresAfter).
Local Abbreviation steps :=
  (apply_ops transport beforeWriteHeader ParseEncoding WriteBody Data
             json_Marshal json_MarshalIndent xml_Marshal xml_MarshalIndent
             JSEscapeString RUNMODE_PROD TypeByExtension Sprintf
             AcceptJSON AcceptXML MIMETextHTMLCharsetUTF8 expiresAfter).

Lemma commit_balance_WriteHeader st ctx :
  commit_balance ctx (Response_WriteHeader beforeWriteHeader st ctx).
Proof.
  destruct (committed (W ctx)) eqn:Hc.
  - rewrite (WriteHeader_when_committed beforeWriteHeader st ctx Hc).
    now apply commit_balance_same.
  - rewrite (WriteHeader_when_fresh beforeWriteHeader st ctx Hc). cbv zeta.
    unfold commit_balance. simpl. rewrite Hc, count_WriteHeader_app. simpl.
    split; [lia|]. split; [reflexivity|]. now eexists.
Qed.

Lemma commit_balance_Write b ctx :
  commit_balance ctx (Response_Write transport b ctx).1.
Proof.
  destruct (Write_shape transport b ctx) as [n ->].
  unfold commit_balance. simpl. rewrite count_WriteHeader_app. simpl.
  split; [lia|]. split; [now destruct (committed (W ctx))|]. now eexists.
Qed.

Lemma commit_balance_Send st content ctx :
  commit_balance ctx (send st content ctx).1.
Proof.
  destruct (committed (W ctx)) eqn:Hc.
  - rewrite (Send_when_committed transport beforeWriteHeader ParseEncoding WriteBody
               st content ctx Hc).
    apply commit_balance_refl.
  - destruct (Send_fresh_shape transport beforeWriteHeader ParseEncoding WriteBody
                st content ctx Hc) as (h & body & sz & Hs & Hb).
    rewrite Hs. unfold commit_balance. simpl. rewrite Hc, count_WriteHeader_app. simpl.
    split; [destruct Hb as [-> | [b ->]]; simpl; lia|].
    split; [reflexivity|]. now eexists.
Qed.

Lemma commit_balance_header_then_Send f st content ctx :
  commit_balance ctx (send st content (with_Header f ctx)).1.
Proof.
  eapply commit_balance_trans;
    [apply (commit_balance_with_Header f)|apply commit_balance_Send].
Qed.

Lemma commit_balance_step o ctx : commit_balance ctx (step o ctx).
Proof.
  destruct o; simpl.
  - apply commit_balance_WriteHeader.
  - apply commit_balance_Write.
  - apply commit_balance_WriteHeader.
  - apply commit_balance_Send.
  - apply commit_balance_with_Header.
  - unfold SetContentType. cbv zeta.
    destruct (negb (String.eqb _ ""));
      [apply commit_balance_with_Header|apply commit_balance_refl].
  - now apply commit_balance_same.
  - now apply commit_balance_same.
  - now apply commit_balance_same.
  - apply commit_balance_with_Header.
  - apply commit_balance_with_Header.
  - unfold String_. cbv zeta.
    destruct (length s =? 0)%nat; apply commit_balance_header_then_Send.
  - apply commit_balance_header_then_Send.
  - unfold JSON.
    destruct (if String.eqb (RunMode ctx) RUNMODE_PROD then _ else _) as [b [e|]];
      [apply commit_balance_refl|apply commit_balance_header_then_Send].
  - apply commit_balance_header_then_Send.
  - unfold JSONP.
    destruct (if String.eqb (RunMode ctx) RUNMODE_PROD then _ else _) as [b [e|]];
      [apply commit_balance_refl|apply commit_balance_header_then_Send].
  - unfold XML.
    destruct (if String.eqb (RunMode ctx) RUNMODE_PROD then _ else _) as [b [e|]];
      [apply commit_balance_refl|apply commit_balance_header_then_Send].
  - apply commit_balance_header_then_Send.
  - unfold JSONOrXML. destruct (AcceptJSON ctx || negb (AcceptXML ctx)).
    + unfold JSON.
      destruct (if String.eqb (RunMode ctx) RUNMODE_PROD then _ else _) as [b [e|]];
        [apply commit_balance_refl|apply commit_balance_header_then_Send].
    + unfold XML.
      destruct (if String.eqb (RunMode ctx) RUNMODE_PROD then _ else _) as [b [e|]];
        [apply commit_balance_refl|apply commit_balance_header_then_Send].
Qed.

Lemma commit_balance_steps os : forall ctx, commit_balance ctx (steps os ctx).
Proof.
  induction os as [|o os IH]; intros ctx.
  - apply commit_balance_refl.
  - unfold apply_ops in *. simpl fold_left.
    eapply commit_balance_trans; [apply commit_balance_step|apply IH].
Qed.

(** Whatever a handler does with one response through this file (writes,
    header and cookie setters, any of the senders, in any number and order),
    the writer is asked for a status line at most once more than before, and
    exactly when the commit flag goes up; the flag never goes down and no
    call already made is taken back.  So a response that is committed gets
    no further status line, and one that starts uncommitted ends with one
    more if it is committed and with none more if it is not. *)
Theorem never_a_second_status_line (os : list (Op Data)) (ctx : Context) :
  let ctx' := steps os ctx in
  let k := count_WriteHeader (calls (writer (W ctx))) in
  let k' := count_WriteHeader (calls (writer (W ctx'))) in
  commit_balance ctx ctx'
  /\ (k' <= S k)%nat
  /\ (if committed (W ctx) then committed (W ctx') = true /\ k' = k
      else k' = (k + flag (committed (W ctx')))%nat).
Proof.
  intros ctx' k k'.
  pose proof (commit_balance_steps os ctx) as Hb. fold ctx' in Hb.
  split; [exact Hb|].
  destruct Hb as (Hk & Hf & _). fold k k' in Hk.
  destruct (committed (W ctx)) eqn:Hc, (committed (W ctx')) eqn:Hc';
    simpl in *; try discriminate; repeat split; lia.
Qed.

(** [reset] starts the next response: whatever state the old one was in,
    the response is uncommitted with status and size zero on the new writer,
    a [WriteHeader] puts its status line there and logs no warning, and
    whatever the handler then does, the new writer is asked for one status
    line if the response ends committed and for none if it does not. *)
Theorem reset_starts_afresh (os : list (Op Data)) (ctx : Context) (w : ResponseWriter)
  (st : Z) :
  let ctx0 := set_W (reset w (W ctx)) ctx in
  let ctx' := steps os ctx0 in
  Response_Committed (W ctx0) = false
  /\ Response_Status (W ctx0) = 0
  /\ Response_Size (W ctx0) = 0
  /\ calls (writer (W (Response_WriteHeader beforeWriteHeader st ctx0))) =
       calls w ++ [CallWriteHeader st (beforeWriteHeader (header w))]
  /\ log (Response_WriteHeader beforeWriteHeader st ctx0) = log ctx
  /\ count_WriteHeader (calls (writer (W ctx')))
     = (count_WriteHeader (calls w) + flag (committed (W ctx')))%nat
  /\ (exists added, calls (writer (W ctx')) = calls w ++ added).
Proof.
  intros ctx0 ctx'.
  do 5 (split; [reflexivity|]).
  destruct (commit_balance_steps os ctx0) as (Hk & _ & Hadd).
  fold ctx' in Hk, Hadd. simpl in Hk, Hadd. split; [lia|exact Hadd].
Qed.

End OneStatusLine.

(** ** The senders, end to end *)

Section SenderProperties.

Variable transport : ResponseWriter -> bytes -> Z * option error.
Variable beforeWriteHeader : Header -> Header.
Variable ParseEncoding : Request -> string.
Variable WriteBody : string -> bytes -> bool * string * bytes.
Variable Data : Type.
Variable json_Marshal : Data -> bytes * option error.
Variable json_MarshalIndent : Data -> string -> string -> bytes * option error.
Variable xml_Marshal : Data -> bytes * option error.
Variable xml_MarshalIndent : Data -> string -> string -> bytes * option error.
Variable JSEscapeString : string -> string.
Variable RUNMODE_PROD : string.
Variable Sprintf : string -> list any -> string.
Variable MIMETextHTMLCharsetUTF8 : string.

Local Abbreviation send := (Send transport beforeWriteHeader ParseEncoding WriteBody).
Local Abbreviation marshal :=
  (marshal_call Data json_Marshal json_MarshalIndent xml_Marshal xml_MarshalIndent
                RUNMODE_PROD).
Local Abbreviation sender :=
  (serialize transport beforeWriteHeader ParseEncoding WriteBody Data
             json_Marshal json_MarshalIndent xml_Marshal xml_MarshalIndent
             JSEscapeString RUNMODE_PROD).

Lemma Send_plain_without_gzip st content ctx :
  committed (W ctx) = false ->
  Get (Response_Header (W ctx)) HeaderContentEncoding = "" ->
  enableGzip ctx = false ->
  let h0 := Response_Header (W ctx) in
  let h1 := if String.eqb (Get h0 HeaderContentLength) "" then
              Set_ HeaderContentLength (strconv.Itoa (Z.of_nat (String.length content))) h0
            else h0 in
  let h := beforeWriteHeader h1 in
  let res := transport (mkWriter h (calls (writer (W ctx)) ++ [CallWriteHeader st h]))
                       content in
  send st content ctx =
    (set_W (mkResponse
              (mkWriter h (calls (writer (W ctx)) ++
                             [CallWriteHeader st h; CallWrite content]))
              st (wrap64 (size (W ctx) + res.1)) true) ctx,
     Return res.2).
Proof.
  intros Hc Hce Hgz h0 h1 h res.
  unfold Send. rewrite Hc, Hce, Hgz. cbv zeta.
  change (String.eqb "" "") with true. cbv iota. fold h0.
  destruct (String.eqb (Get h0 HeaderContentLength) "") eqn:Hcl.
  - apply (commit_and_write_fresh transport beforeWriteHeader st content
             (with_Header (Set_ HeaderContentLength
                (strconv.Itoa (Z.of_nat (String.length content)))) ctx) Hc).
  - apply (commit_and_write_fresh transport beforeWriteHeader st content ctx Hc).
Qed.

(** On a committed response the senders that set a content type ask
    nothing of the writer and return the error, as [Send] does, but they
    have replaced Content-Type in the header map before finding out. *)
Theorem senders_on_committed_response (st : Z) (body : bytes) (args : list any)
  (ctx : Context) :
  committed (W ctx) = true ->
  let refused mime := (with_Header (Set_ HeaderContentType mime) ctx,
                       Return (Some "multiple response.WriteHeader calls")) in
  JSONBlob transport beforeWriteHeader ParseEncoding WriteBody st body ctx
    = refused "application/json; charset=utf-8"
  /\ XMLBlob transport beforeWriteHeader ParseEncoding WriteBody st body ctx
    = refused "application/xml; charset=utf-8"
  /\ String_ transport beforeWriteHeader ParseEncoding WriteBody Sprintf st body args ctx
    = refused "text/plain; charset=utf-8"
  /\ HTML transport beforeWriteHeader ParseEncoding WriteBody MIMETextHTMLCharsetUTF8
          st body ctx
    = refused MIMETextHTMLCharsetUTF8
  /\ (forall mime,
        calls (writer (W (refused mime).1)) = calls (writer (W ctx))
        /\ Get (Response_Header (W (refused mime).1)) HeaderContentType = mime).
Proof.
  intros Hc refused.
  assert (H : forall mime content,
            send st content (with_Header (Set_ HeaderContentType mime) ctx) = refused mime).
  { intros. now apply Send_when_committed. }
  split; [apply H|]. split; [apply H|]. split.
  - unfold String_. cbv zeta. destruct (length args =? 0)%nat; apply H.
  - split; [apply H|]. intros mime. split; [reflexivity|]. apply Get_Set_eq.
Qed.

(** When its marshal call succeeds with bytes [b], each of [JSON], [JSONP]
    and [XML] sends, on an uncommitted response without Content-Encoding
    and with compression off: one status line with the given status, whose
    headers carry the sender's own Content-Type in place of any the caller
    had set and, unless the caller set one, the Content-Length of the body;
    then the body in one [Write].  The body is [b] for [JSON], the callback
    wrapper around [b] for [JSONP], and for [XML] the 39 bytes of the XML
    declaration followed by [b]. *)
Theorem serialize_sends (s : Sender) (st : Z) (data : Data) (ctx : Context) (b : bytes) :
  marshal s ctx data = (b, None) ->
  committed (W ctx) = false ->
  Get (Response_Header (W ctx)) HeaderContentEncoding = "" ->
  enableGzip ctx = false ->
  let mime := match s with
              | ViaJSON => "application/json; charset=utf-8"
              | ViaJSONP _ => "application/javascript; charset=utf-8"
              | ViaXML => "application/xml; charset=utf-8"
              end in
  let body := match s with
              | ViaJSON => b
              | ViaJSONP callback =>
                  " if(window." +:+ JSEscapeString callback +:+ ")"
                    +:+ JSEscapeString callback +:+ "(" +:+ b +:+ ");"
                    +:+ String CR (String LF "")
              | ViaXML => xml_Header +:+ b
              end in
  let h0 := Set_ HeaderContentType mime (Response_Header (W ctx)) in
  let h1 := if String.eqb (Get (Response_Header (W ctx)) HeaderContentLength) "" then
              Set_ HeaderContentLength (strconv.Itoa (Z.of_nat (String.length body))) h0
            else h0 in
  let ctx' := (sender s st data ctx).1 in
  calls (writer (W ctx')) =
    calls (writer (W ctx)) ++ [CallWriteHeader st (beforeWriteHeader h1); CallWrite body]
  /\ Get h1 HeaderContentType = mime
  /\ (s = ViaXML -> String.length body = (39 + String.length b)%nat).
Proof.
  intros Hm Hc Hce Hgz mime body h0 h1 ctx'.
  assert (Hs : sender s st data ctx =
               send st body (with_Header (Set_ HeaderContentType mime) ctx)).
  { destruct s as [|cb|]; simpl in Hm |- *; unfold JSON, JSONP, XML; rewrite Hm;
      try reflexivity.
    cbv zeta. unfold MIMEApplicationJavaScriptCharsetUTF8, CRLF. f_equal.
    subst body. rewrite !append_assoc. reflexivity. }
  assert (Hce' : Get (Response_Header (W (with_Header (Set_ HeaderContentType mime) ctx)))
                     HeaderContentEncoding = "").
  { unfold with_Header, Response_Header. simpl. rewrite Get_Set_ne; [exact Hce|discriminate]. }
  assert (Hcl : Get h0 HeaderContentLength
                = Get (Response_Header (W ctx)) HeaderContentLength).
  { subst h0. apply Get_Set_ne. discriminate. }
  split; [|split].
  - subst ctx'. rewrite Hs.
    rewrite (Send_plain_without_gzip st body
               (with_Header (Set_ HeaderContentType mime) ctx) Hc Hce' Hgz).
    cbv zeta. simpl.
    change (Response_Header
              (set_writer (mkWriter (Set_ HeaderContentType mime (Response_Header (W ctx)))
                                    (calls (writer (W ctx)))) (W ctx))) with h0.
    rewrite Hcl. reflexivity.
  - subst h1. destruct (String.eqb _ "").
    + rewrite Get_Set_ne by discriminate. apply Get_Set_eq.
    + apply Get_Set_eq.
  - intros ->. subst body. rewrite length_append. reflexivity.
Qed.

End SenderProperties.

Lemma senders_on_committed_response_witness :
  Get (Response_Header
         (W (JSONBlob transport_ok no_hook sample_ParseEncoding sample_WriteBody 200 "{}"
               (NoContent no_hook 204 (fresh_context false))).1)) HeaderContentType
  = "application/json; charset=utf-8".
Proof.
  destruct (senders_on_committed_response transport_ok no_hook sample_ParseEncoding
              sample_WriteBody (fun f _ => f) "text/html" 200 "{}" []
              (NoContent no_hook 204 (fresh_context false)) eq_refl) as (H & _).
  rewrite H. reflexivity.
Defined.

Lemma serialize_sends_witness :
  calls (writer (W (JSON transport_ok no_hook sample_ParseEncoding sample_WriteBody
                         SampleData sample_json_Marshal sample_json_MarshalIndent "dev"
                         200 MapA1 (fresh_context false)).1))
  = [CallWriteHeader 200
       (Set_ HeaderContentLength "7"
          (Set_ HeaderContentType "application/json; charset=utf-8" ∅));
     CallWrite ("{" +:+ dquote +:+ "a" +:+ dquote +:+ ":1}")].
Proof.
  destruct (serialize_sends transport_ok no_hook sample_ParseEncoding sample_WriteBody
              SampleData sample_json_Marshal sample_json_MarshalIndent
              sample_xml_Marshal sample_xml_MarshalIndent sample_JSEscapeString "dev"
              ViaJSON 200 MapA1 (fresh_context false)
              ("{" +:+ dquote +:+ "a" +:+ dquote +:+ ":1}")
              eq_refl eq_refl eq_refl eq_refl) as (H & _).
  exact H.
Defined.

(** ** Header keys *)

Lemma canonical_byte_facts (u : bool) (c : ascii) :
  let step u c := if u && textproto.is_lower c
                  then byte_of (byte_val c - textproto.toLower)
                  else if negb u && textproto.is_upper c
                       then byte_of (byte_val c + textproto.toLower)
                       else c in
  let low c := if textproto.is_upper c then byte_of (byte_val c + textproto.toLower) else c in
  step u (step u c) = step u c
  /\ textproto.validHeaderFieldByte (step u c) = textproto.validHeaderFieldByte c
  /\ step u (low c) = step u c
  /\ textproto.validHeaderFieldByte (low c) = textproto.validHeaderFieldByte c.
Proof.
  destruct u, c as [[] [] [] [] [] [] [] []]; vm_compute; repeat split; reflexivity.
Qed.

Lemma canonical_go_idempotent s : forall u,
  textproto.canonical_go u (textproto.canonical_go u s) = textproto.canonical_go u s.
Proof.
  induction s as [|c s IH]; intros u; [reflexivity|].
  cbn [textproto.canonical_go]. cbv zeta.
  destruct (canonical_byte_facts u c) as (H1 & _). cbv zeta in H1.
  rewrite H1. f_equal. apply IH.
Qed.

Lemma canonical_go_valid s : forall u,
  textproto.all_valid (textproto.canonical_go u s) = textproto.all_valid s.
Proof.
  induction s as [|c s IH]; intros u; [reflexivity|].
  cbn [textproto.canonical_go textproto.all_valid]. cbv zeta.
  destruct (canonical_byte_facts u c) as (_ & H2 & _). cbv zeta in H2.
  rewrite H2. f_equal. apply IH.
Qed.

Lemma canonical_go_fold_case s : forall u,
  textproto.canonical_go u (textproto.fold_case s) = textproto.canonical_go u s.
Proof.
  induction s as [|c s IH]; intros u; [reflexivity|].
  cbn [textproto.canonical_go textproto.fold_case]. cbv zeta.
  destruct (canonical_byte_facts u c) as (_ & _ & H3 & _). cbv zeta in H3.
  rewrite H3. f_equal. apply IH.
Qed.

Lemma all_valid_fold_case s :
  textproto.all_valid (textproto.fold_case s) = textproto.all_valid s.
Proof.
  induction s as [|c s IH]; [reflexivity|].
  cbn [textproto.all_valid textproto.fold_case].
  destruct (canonical_byte_facts true c) as (_ & _ & _ & H4). cbv zeta in H4.
  rewrite H4. f_equal. exact IH.
Qed.

Lemma Canonical_of_fold_case key key' :
  textproto.all_valid key = true ->
  textproto.fold_case key = textproto.fold_case key' ->
  textproto.CanonicalMIMEHeaderKey key = textproto.CanonicalMIMEHeaderKey key'.
Proof.
  intros Hv Hf.
  assert (Hv' : textproto.all_valid key' = true)
    by (rewrite <- all_valid_fold_case, <- Hf, all_valid_fold_case; exact Hv).
  unfold textproto.CanonicalMIMEHeaderKey. rewrite Hv, Hv'.
  rewrite <- (canonical_go_fold_case key), <- (canonical_go_fold_case key'). now rewrite Hf.
Qed.

(** [SetHeader] does not tell spellings of a key apart: two keys made of
    token bytes that differ only in the case of their letters set the same
    entry, the one under the canonical key, which is what a later read
    under that key returns; canonicalising twice changes nothing more, and
    every other entry is left alone. *)
Theorem SetHeader_ignores_case (key key' val : string) (ctx : Context) :
  textproto.all_valid key = true ->
  textproto.fold_case key = textproto.fold_case key' ->
  let k := textproto.CanonicalMIMEHeaderKey key in
  SetHeader key' val ctx = SetHeader key val ctx
  /\ Get (Response_Header (W (SetHeader key val ctx))) k = val
  /\ textproto.CanonicalMIMEHeaderKey k = k
  /\ (forall k', k' <> k ->
        Response_Header (W (SetHeader key val ctx)) !! k' = Response_Header (W ctx) !! k').
Proof.
  intros Hv Hf k.
  split; [unfold SetHeader; now rewrite <- (Canonical_of_fold_case key key' Hv Hf)|].
  split; [unfold SetHeader, with_Header, Response_Header; simpl; apply Get_Set_eq|].
  split.
  - subst k. unfold textproto.CanonicalMIMEHeaderKey. rewrite Hv.
    now rewrite canonical_go_valid, Hv, canonical_go_idempotent.
  - intros k' Hk. unfold SetHeader, with_Header, Response_Header. simpl.
    now apply lookup_Set_ne.
Qed.

(** A Content-Encoding set through [SetHeader] under any spelling of the
    key switches compression off for the next [Send]: with a non-empty
    value, the content goes to the writer as it is, whatever the negotiator
    would have answered. *)
Theorem SetHeader_encoding_skips_compression
  (transport : ResponseWriter -> bytes -> Z * option error)
  (beforeWriteHeader : Header -> Header)
  (ParseEncoding : Request -> string)
  (WriteBody : string -> bytes -> bool * string * bytes)
  (key val : string) (st : Z) (content : bytes) (ctx : Context) :
  textproto.fold_case key = "content-encoding" ->
  val <> "" ->
  committed (W ctx) = false ->
  let ctx' := (Send transport beforeWriteHeader ParseEncoding WriteBody st content
                    (SetHeader key val ctx)).1 in
  let h := beforeWriteHeader (Set_ HeaderContentEncoding val (Response_Header (W ctx))) in
  calls (writer (W ctx')) =
    calls (writer (W ctx)) ++ [CallWriteHeader st h; CallWrite content]
  /\ Get (Set_ HeaderContentEncoding val (Response_Header (W ctx))) HeaderContentEncoding = val.
Proof.
  intros Hf Hval Hc ctx' h.
  assert (Hk : textproto.CanonicalMIMEHeaderKey key = HeaderContentEncoding).
  { assert (Hv : textproto.all_valid key = true)
      by (rewrite <- all_valid_fold_case, Hf; reflexivity).
    unfold textproto.CanonicalMIMEHeaderKey. rewrite Hv.
    rewrite <- canonical_go_fold_case, Hf. reflexivity. }
  split; [|apply Get_Set_eq].
  subst ctx'. unfold SetHeader. rewrite Hk.
  rewrite (Send_encoding_set transport beforeWriteHeader ParseEncoding WriteBody st content
             (with_Header (Set_ HeaderContentEncoding val) ctx) Hc).
  - reflexivity.
  - unfold with_Header, Response_Header. simpl. now rewrite Get_Set_eq.
Qed.

Lemma SetHeader_ignores_case_witness :
  SetHeader "CONTENT-type" "text/css" (fresh_context false)
  = SetHeader "content-Type" "text/css" (fresh_context false).
Proof.
  destruct (SetHeader_ignores_case "content-Type" "CONTENT-type" "text/css"
              (fresh_context false) eq_refl eq_refl) as (H & _).
  exact H.
Defined.

Lemma SetHeader_encoding_skips_compression_witness :
  calls (writer (W (Send transport_ok no_hook sample_ParseEncoding sample_WriteBody
                         200 "hello"
                         (SetHeader "content-encoding" "identity" (fresh_context true))).1))
  = [CallWriteHeader 200 (Set_ HeaderContentEncoding "identity" ∅); CallWrite "hello"].
Proof.
  destruct (SetHeader_encoding_skips_compression transport_ok no_hook sample_ParseEncoding
              sample_WriteBody "content-encoding" "identity" 200 "hello"
              (fresh_context true) eq_refl) as (H & _).
  - discriminate.
  - reflexivity.
  - exact H.
Defined.

Example canonical_keys :
  textproto.CanonicalMIMEHeaderKey "content-type" = "Content-Type"
  /\ textproto.CanonicalMIMEHeaderKey "x-REAL-ip" = "X-Real-Ip"
  /\ textproto.CanonicalMIMEHeaderKey "my header" = "my header"
  /\ map textproto.CanonicalMIMEHeaderKey
       [HeaderSetCookie; HeaderContentEncoding; HeaderContentLength; HeaderContentType;
        HeaderContentDescription; HeaderContentDisposition; HeaderContentTransferEncoding;
        HeaderExpires; HeaderCacheControl; HeaderPragma]
     = [HeaderSetCookie; HeaderContentEncoding; HeaderContentLength; HeaderContentType;
        HeaderContentDescription; HeaderContentDisposition; HeaderContentTransferEncoding;
        HeaderExpires; HeaderCacheControl; HeaderPragma].
Proof. vm_compute. repeat split; reflexivity. Qed.

(** ** More on cookies *)

Lemma count_byte_append c s t :
  count_byte c (s +:+ t) = (count_byte c s + count_byte c t)%nat.
Proof.
  induction s as [|c' s IH]; step_append; simpl; [reflexivity|]. rewrite IH. lia.
Qed.

Lemma Replace_append r s t :
  gostrings.Replace r (s +:+ t) = gostrings.Replace r s +:+ gostrings.Replace r t.
Proof.
  induction s as [|c s IH]; step_append; simpl; [reflexivity|].
  step_append. now rewrite IH.
Qed.

Lemma all_in_append chars s t :
  gostrings.all_in chars (s +:+ t) = gostrings.all_in chars s && gostrings.all_in chars t.
Proof.
  induction s as [|c s IH]; step_append; simpl; [reflexivity|].
  destruct (String.index 0 (String c "") chars); [exact IH|reflexivity].
Qed.

Lemma all_in_count chars c0 s :
  String.index 0 (String c0 "") chars = None ->
  gostrings.all_in chars s = true -> count_byte c0 s = 0%nat.
Proof.
  intros Hout. induction s as [|c s IH]; simpl; [reflexivity|].
  destruct (String.index 0 (String c "") chars) eqn:Hin; [|discriminate].
  intros Hs. rewrite (IH Hs).
  destruct (Ascii.eqb_spec c c0) as [->|_]; [congruence|reflexivity].
Qed.

Lemma all_in_Replace_id chars r s :
  (forall c, String.index 0 (String c "") chars <> None -> gostrings.lookup_byte r c = c) ->
  gostrings.all_in chars s = true -> gostrings.Replace r s = s.
Proof.
  intros Hr. induction s as [|c s IH]; simpl; [reflexivity|].
  destruct (String.index 0 (String c "") chars) eqn:Hin; [|discriminate].
  intros Hs. rewrite (IH Hs), Hr; [reflexivity|congruence].
Qed.

Lemma all_in_cons chars c s :
  String.index 0 (String c "") chars <> None ->
  gostrings.all_in chars s = true -> gostrings.all_in chars (String c s) = true.
Proof.
  intros Hc Hs. cbn [gostrings.all_in].
  destruct (String.index 0 (String c "") chars); [exact Hs|congruence].
Qed.

Lemma digits_in_decimal_chars s :
  strconv.all_digits s = true -> gostrings.all_in decimal_chars s = true.
Proof.
  induction s as [|c s IH]; [reflexivity|].
  cbn [strconv.all_digits]. intros H. apply andb_true_iff in H. destruct H as [Hc Hs].
  apply all_in_cons; [|now apply IH].
  revert Hc. clear. destruct c as [[] [] [] [] [] [] [] []]; vm_compute; congruence.
Qed.

Lemma FormatInt_chars i : gostrings.all_in decimal_chars (strconv.FormatInt i) = true.
Proof.
  unfold strconv.FormatInt.
  destruct (formatBits_digits (S (Z.to_nat (Z.log2 (Z.abs i)))) (Z.abs i) "")
    as (ds & Hf & Hd & _).
  { split; [lia|]. rewrite Nat2Z.inj_succ, Z2Nat.id by apply Z.log2_nonneg.
    destruct (Z.eq_dec (Z.abs i) 0) as [->|Hz]; [simpl; lia|].
    apply Z.log2_spec. lia. }
  cbv zeta. rewrite Hf, append_empty_r.
  destruct (i <? 0); [|now apply digits_in_decimal_chars].
  apply all_in_cons; [vm_compute; discriminate|now apply digits_in_decimal_chars].
Qed.

Lemma enc_in_base64_chars v :
  String.index 0 (String (base64.enc v) "") base64_chars <> None.
Proof.
  unfold base64.enc. generalize (Z.to_nat (v mod 64)). intros n.
  do 64 (destruct n as [|n]; [vm_compute; discriminate|]).
  vm_compute. discriminate.
Qed.

Lemma base64_chars_only src :
  gostrings.all_in base64_chars (base64.EncodeToString src) = true.
Proof.
  assert (H : forall s,
    gostrings.all_in base64_chars (base64.EncodeToString s) = true
    /\ (forall a, gostrings.all_in base64_chars (base64.EncodeToString (String a s)) = true)
    /\ (forall a b,
          gostrings.all_in base64_chars (base64.EncodeToString (String a (String b s)))
          = true)).
  { assert (Hstep : forall v rest,
              gostrings.all_in base64_chars rest = true ->
              gostrings.all_in base64_chars (String (base64.enc v) rest) = true).
    { intros v rest Hrest. apply all_in_cons; [apply enc_in_base64_chars|exact Hrest]. }
    induction s as [|c s (IH0 & IH1 & IH2)].
    - split; [reflexivity|]. split; intros; cbn [base64.EncodeToString]; cbv zeta;
        repeat apply Hstep; reflexivity.
    - split; [exact (IH1 c)|]. split; [exact (fun a => IH2 a c)|].
      intros a b. cbn [base64.EncodeToString]. cbv zeta. repeat apply Hstep. exact IH0. }
  apply H.
Qed.

Lemma sanitizers_keep_clean_bytes :
  (forall c, String.index 0 (String c "") base64_chars <> None ->
             gostrings.lookup_byte cookieValueSanitizer c = c)
  /\ (forall c, String.index 0 (String c "") decimal_chars <> None ->
               gostrings.lookup_byte cookieValueSanitizer c = c)
  /\ (forall c, String.index 0 (String c "") hex.hextable <> None ->
               gostrings.lookup_byte cookieValueSanitizer c = c).
Proof.
  repeat split; intros c; destruct c as [[] [] [] [] [] [] [] []];
    vm_compute; intros H; try reflexivity; now destruct H.
Qed.

(** The value [SetSecureCookie] builds goes through [SetCookie]'s
    sanitizer unchanged, so the cookie emitted is the sanitized name, [=],
    and the three fields as built; and since no field holds a [|], the value
    has exactly two of them: a reader splitting at [|] gets the three fields
    back. *)
Theorem secure_cookie_value_survives (expiresAfter : Z -> string) (now_UnixNano : Z)
  (secret name value : string) (others : list any) :
  let vs := base64.EncodeToString value in
  let timestamp := strconv.FormatInt now_UnixNano in
  let sig := hex.EncodeToString (hmac.Sum_sha1 secret (vs +:+ timestamp)) in
  let v := secureCookieValue now_UnixNano secret value in
  sanitizeValue v = v
  /\ v = vs +:+ "|" +:+ timestamp +:+ "|" +:+ sig
  /\ count_byte "|" vs = 0%nat /\ count_byte "|" timestamp = 0%nat
  /\ count_byte "|" sig = 0%nat
  /\ count_byte "|" v = 2%nat
  /\ (exists attrs,
        cookieString expiresAfter name v others
        = sanitizeName name +:+ "=" +:+ vs +:+ "|" +:+ timestamp +:+ "|" +:+ sig +:+ attrs).
Proof.
  intros vs timestamp sig v.
  assert (Hv : v = vs +:+ "|" +:+ timestamp +:+ "|" +:+ sig).
  { subst v. unfold secureCookieValue. fold vs. fold timestamp.
    simpl gostrings.Join. unfold Sprintf_02x. fold sig.
    pose proof (hmac_Sum_length secret (vs +:+ timestamp)) as Hl.
    destruct (hmac.Sum_sha1 secret (vs +:+ timestamp)); [discriminate Hl|reflexivity]. }
  destruct sanitizers_keep_clean_bytes as (Hb & Hd & Hh).
  pose proof (base64_chars_only value) as Hvs. fold vs in Hvs.
  pose proof (FormatInt_chars now_UnixNano) as Hts. fold timestamp in Hts.
  pose proof (hex_lower_case (hmac.Sum_sha1 secret (vs +:+ timestamp))) as Hsig.
  fold sig in Hsig.
  assert (Hsan : sanitizeValue v = v).
  { rewrite Hv. unfold sanitizeValue. rewrite !Replace_append.
    rewrite (all_in_Replace_id _ _ vs Hb Hvs), (all_in_Replace_id _ _ timestamp Hd Hts),
      (all_in_Replace_id _ _ sig Hh Hsig).
    reflexivity. }
  assert (C1 : count_byte "|" vs = 0%nat) by (now apply (all_in_count base64_chars)).
  assert (C2 : count_byte "|" timestamp = 0%nat) by (now apply (all_in_count decimal_chars)).
  assert (C3 : count_byte "|" sig = 0%nat) by (now apply (all_in_count hex.hextable)).
  split; [exact Hsan|]. split; [exact Hv|]. split; [exact C1|]. split; [exact C2|].
  split; [exact C3|]. split.
  - rewrite Hv, !count_byte_append, C1, C2, C3. reflexivity.
  - eexists. unfold cookieString, cookiePair. rewrite Hsan, Hv, !append_assoc. reflexivity.
Qed.

Lemma sanitized_has_no_break c s :
  c = CR \/ c = LF ->
  count_byte c (sanitizeName s) = 0%nat /\ count_byte c (sanitizeValue s) = 0%nat.
Proof.
  intros Hc. unfold sanitizeName, sanitizeValue.
  induction s as [|c0 s [IHn IHv]]; [split; reflexivity|].
  cbn [gostrings.Replace count_byte]. rewrite IHn, IHv.
  destruct (name_sanitizer_byte c0) as [Hn1 Hn2].
  pose proof (value_sanitizer_byte c0) as Hv. cbv zeta in Hv.
  destruct Hv as (Hv1 & Hv2 & _).
  split.
  - destruct (Ascii.eqb_spec (gostrings.lookup_byte cookieNameSanitizer c0) c) as [E|_];
      [|reflexivity].
    destruct Hc; congruence.
  - destruct (Ascii.eqb_spec (gostrings.lookup_byte cookieValueSanitizer c0) c) as [E|_];
      [|reflexivity].
    destruct Hc; congruence.
Qed.

Lemma decimal_has_no_break c i :
  c = CR \/ c = LF -> count_byte c (strconv.FormatInt i) = 0%nat.
Proof.
  intros Hc. apply (all_in_count decimal_chars); [|apply FormatInt_chars].
  destruct Hc as [-> | ->]; reflexivity.
Qed.

(** As long as the formatted expiry time holds no CR or LF, neither does
    the cookie string [SetCookie] adds as a header value, whatever the name,
    the value, and the path and domain given: no argument can break the
    header line. *)
Theorem cookie_has_no_line_break (expiresAfter : Z -> string)
  (name value : string) (others : list any) :
  (forall d, count_byte CR (expiresAfter d) = 0%nat
             /\ count_byte LF (expiresAfter d) = 0%nat) ->
  count_byte CR (cookieString expiresAfter name value others) = 0%nat
  /\ count_byte LF (cookieString expiresAfter name value others) = 0%nat.
Proof.
  intros Hexp.
  assert (H : forall c, c = CR \/ c = LF ->
            count_byte c (cookieString expiresAfter name value others) = 0%nat).
  { intros c Hc.
    assert (He : forall d, count_byte c (expiresAfter d) = 0%nat)
      by (intros d; destruct (Hexp d); destruct Hc as [-> | ->]; assumption).
    assert (Hlit : forall l, l = "=" \/ l = "; Expires=" \/ l = "; Max-Age="
                     \/ l = "; Max-Age=0" \/ l = "; Path=" \/ l = "; Path=/"
                     \/ l = "; Domain=" \/ l = "; Secure" \/ l = "; HttpOnly" \/ l = "" ->
                   count_byte c l = 0%nat).
    { intros l Hl. destruct Hc as [-> | ->];
        repeat (destruct Hl as [-> | Hl]; [reflexivity|]); subst l; reflexivity. }
    destruct (sanitized_has_no_break c name Hc) as [Hname _].
    assert (Hval : forall v, count_byte c (sanitizeValue v) = 0%nat)
      by (intros v; apply (sanitized_has_no_break c v Hc)).
    unfold cookieString, cookiePair. rewrite !count_byte_append, Hname, Hval.
    rewrite (Hlit "=") by tauto.
    assert (H1 : count_byte c (maxAgeAttr expiresAfter others) = 0%nat).
    { unfold maxAgeAttr. destruct (others !! 0%nat) as [v|]; [|apply Hlit; tauto].
      cbv zeta.
      match goal with |- context [0 <? ?m] => generalize m end. intros m.
      destruct (0 <? m).
      - rewrite !count_byte_append, He, (decimal_has_no_break c m Hc).
        rewrite (Hlit "; Expires="), (Hlit "; Max-Age=") by tauto. reflexivity.
      - destruct (m <? 0); apply Hlit; tauto. }
    assert (H2 : count_byte c (pathAttr others) = 0%nat).
    { unfold pathAttr. destruct (others !! 1%nat) as [[]|]; try (apply Hlit; tauto).
      destruct (0 <? String.length v)%nat; [|apply Hlit; tauto].
      rewrite count_byte_append, Hval, (Hlit "; Path=") by tauto. reflexivity. }
    assert (H3 : count_byte c (domainAttr others) = 0%nat).
    { unfold domainAttr. destruct (others !! 2%nat) as [[]|]; try (apply Hlit; tauto).
      destruct (0 <? String.length v)%nat; [|apply Hlit; tauto].
      rewrite count_byte_append, Hval, (Hlit "; Domain=") by tauto. reflexivity. }
    assert (H4 : count_byte c (secureAttr others) = 0%nat).
    { unfold secureAttr. destruct (others !! 3%nat) as [[| | | | |[]|]|];
        apply Hlit; tauto. }
    assert (H5 : count_byte c (httpOnlyAttr others) = 0%nat).
    { unfold httpOnlyAttr. destruct (others !! 4%nat) as [[| | | | |[]|]|];
        apply Hlit; tauto. }
    rewrite H1, H2, H3, H4, H5. reflexivity. }
  split; apply H; [now left|now right].
Qed.

Lemma cookie_has_no_line_break_witness :
  count_byte LF (cookieString sample_expiresAfter (String LF "sid") (String CR "v")
                   [Int 60; Str (String LF "/p"); Str (String CR "d")]) = 0%nat.
Proof.
  destruct (cookie_has_no_line_break sample_expiresAfter (String LF "sid") (String CR "v")
              [Int 60; Str (String LF "/p"); Str (String CR "d")]) as (_ & H).
  - intros d. split; reflexivity.
  - exact H.
Defined.

(** The two flags read their arguments differently.  Secure is set by
    the bool [true] and by any value that is neither a bool nor [nil], be it
    the integer 0 or a string; HttpOnly is set by the bool [true] only. *)
Theorem cookie_flags (others : list any) :
  (secureAttr others = "; Secure" <->
     exists x, others !! 3%nat = Some x /\ x <> Nil /\ x <> Boolean false)
  /\ (secureAttr others = "" <->
       others !! 3%nat = None \/ others !! 3%nat = Some Nil
       \/ others !! 3%nat = Some (Boolean false))
  /\ (httpOnlyAttr others = "; HttpOnly" <-> others !! 4%nat = Some (Boolean true))
  /\ (httpOnlyAttr others = "" <-> others !! 4%nat <> Some (Boolean true)).
Proof.
  unfold secureAttr, httpOnlyAttr.
  split; [|split; [|split]].
  - destruct (others !! 3%nat) as [[| | | | |[]|]|]; split; intros H;
      try discriminate; try reflexivity;
      try (destruct H as (x & Hx & H1 & H2); congruence);
      eexists; repeat split; discriminate.
  - destruct (others !! 3%nat) as [[| | | | |[]|]|]; split; intros H;
      try discriminate; try reflexivity; try tauto;
      destruct H as [H|[H|H]]; discriminate.
  - destruct (others !! 4%nat) as [[| | | | |[]|]|]; split; intros H;
      try discriminate; reflexivity.
  - destruct (others !! 4%nat) as [[| | | | |[]|]|]; split; intros H;
      try discriminate; try reflexivity; congruence.
Qed.

Lemma cookie_flags_witness :
  secureAttr [Nil; Nil; Nil; Str "false"] = "; Secure"
  /\ httpOnlyAttr [Nil; Nil; Nil; Nil; Str "true"] = "".
Proof.
  destruct (cookie_flags [Nil; Nil; Nil; Str "false"]) as (H1 & _).
  destruct (cookie_flags [Nil; Nil; Nil; Nil; Str "true"]) as (_ & _ & _ & H2).
  split.
  - apply H1. exists (Str "false"). repeat split; discriminate.
  - apply H2. discriminate.
Defined.

(** The max-age argument counts only as an [int], [int32] or [int64]: zero
    gives no attribute, any negative number [Max-Age=0], and a positive one
    both Expires and Max-Age with the number in decimal.  The expiry is
    computed from the number of seconds as a duration in nanoseconds, which
    is exact up to 9223372036 seconds and has wrapped around for every
    larger [int64]. *)
Theorem cookie_max_age (expiresAfter : Z -> string) (m : Z) (v : any) (rest : list any) :
  v = Int m \/ v = Int32 m \/ v = Int64 m ->
  (m = 0 -> maxAgeAttr expiresAfter (v :: rest) = "")
  /\ (m < 0 -> maxAgeAttr expiresAfter (v :: rest) = "; Max-Age=0")
  /\ (0 < m ->
      maxAgeAttr expiresAfter (v :: rest)
      = "; Expires=" +:+ expiresAfter (wrap64 (m * time_Second))
          +:+ "; Max-Age=" +:+ strconv.FormatInt m
      /\ strconv.decimal_value (strconv.FormatInt m) = m)
  /\ (0 < m <= 9223372036 -> wrap64 (m * time_Second) = m * 1000000000)
  /\ (9223372036 < m < 2 ^ 63 -> wrap64 (m * time_Second) <> m * 1000000000).
Proof.
  intros Hv.
  assert (Hm : maxAgeAttr expiresAfter (v :: rest) =
               if 0 <? m then
                 "; Expires=" +:+ expiresAfter (wrap64 (m * time_Second))
                   +:+ "; Max-Age=" +:+ strconv.FormatInt m
               else if m <? 0 then "; Max-Age=0" else "").
  { destruct Hv as [-> | [-> | ->]]; reflexivity. }
  split; [intros ->; rewrite Hm; reflexivity|].
  split.
  - intros Hneg. rewrite Hm.
    replace (0 <? m) with false by (symmetry; apply Z.ltb_ge; lia).
    replace (m <? 0) with true by (symmetry; apply Z.ltb_lt; lia). reflexivity.
  - split; [|split].
    + intros Hpos. rewrite Hm.
      replace (0 <? m) with true by (symmetry; apply Z.ltb_lt; lia).
      split; [reflexivity|]. apply (Itoa_decimal m). lia.
    + intros Hr. unfold time_Second. apply wrap64_small. lia.
    + intros Hr Heq. pose proof (wrap64_range (m * time_Second)) as Hw.
      rewrite Heq in Hw. lia.
Qed.

Lemma cookie_max_age_witness :
  maxAgeAttr sample_expiresAfter [Int32 (-7)] = "; Max-Age=0"
  /\ wrap64 (9223372037 * time_Second) <> 9223372037 * 1000000000.
Proof.
  destruct (cookie_max_age sample_expiresAfter (-7) (Int32 (-7)) [])
    as (_ & H1 & _); [right; left; reflexivity|].
  destruct (cookie_max_age sample_expiresAfter 9223372037 (Int64 9223372037) [])
    as (_ & _ & _ & _ & H2); [right; right; reflexivity|].
  split; [apply H1; lia|apply H2; lia].
Defined.

Lemma sanitizer_bytes_idempotent c :
  gostrings.lookup_byte cookieNameSanitizer (gostrings.lookup_byte cookieNameSanitizer c)
  = gostrings.lookup_byte cookieNameSanitizer c
  /\ gostrings.lookup_byte cookieValueSanitizer (gostrings.lookup_byte cookieValueSanitizer c)
     = gostrings.lookup_byte cookieValueSanitizer c
  /\ (Ascii.eqb (gostrings.lookup_byte cookieNameSanitizer c) ";"%char = Ascii.eqb c ";"%char)
  /\ (Ascii.eqb (gostrings.lookup_byte cookieNameSanitizer c) "="%char = Ascii.eqb c "="%char).
Proof.
  destruct c as [[] [] [] [] [] [] [] []]; vm_compute; repeat split; reflexivity.
Qed.

(** Sanitizing twice is sanitizing once, for names and for values.  The
    name sanitizer only replaces line breaks: every [;] and [=] of a name
    reaches the header as it is. *)
Theorem sanitizers_idempotent (s : string) :
  sanitizeName (sanitizeName s) = sanitizeName s
  /\ sanitizeValue (sanitizeValue s) = sanitizeValue s
  /\ count_byte ";" (sanitizeName s) = count_byte ";" s
  /\ count_byte "=" (sanitizeName s) = count_byte "=" s
  /\ count_byte ";" (sanitizeValue s) = 0%nat.
Proof.
  unfold sanitizeName, sanitizeValue.
  induction s as [|c s (IH1 & IH2 & IH3 & IH4 & IH5)]; [repeat split; reflexivity|].
  cbn [gostrings.Replace count_byte].
  destruct (sanitizer_bytes_idempotent c) as (H1 & H2 & H3 & H4).
  rewrite H1, H2, H3, H4, IH1, IH2, IH3, IH4, IH5.
  repeat split; try reflexivity.
  pose proof (value_sanitizer_byte c) as Hv. cbv zeta in Hv. destruct Hv as (_ & _ & Hv & _).
  destruct (Ascii.eqb_spec (gostrings.lookup_byte cookieValueSanitizer c) ";"%char);
    [congruence|reflexivity].
Qed.

(** The cookie methods of [Response] compose as their names say:
    [SetCookie] is [DelCookie] followed by [AddCookie]; [DelCookie] removes
    every Set-Cookie value, however many [Context.SetCookie] calls put them
    there, and nothing else. *)
Theorem Response_cookies_compose (expiresAfter : Z -> string) (cookie : string)
  (cs : list (string * string * list any)) (ctx : Context) :
  Response_SetCookie cookie (W ctx) = Response_AddCookie cookie (Response_DelCookie (W ctx))
  /\ values (Response_Header (Response_DelCookie (W (SetCookies expiresAfter cs ctx))))
            HeaderSetCookie = []
  /\ (forall k, k <> HeaderSetCookie ->
        Response_Header (Response_DelCookie (W ctx)) !! k = Response_Header (W ctx) !! k)
  /\ Response_DelCookie (Response_DelCookie (W ctx)) = Response_DelCookie (W ctx).
Proof.
  split; [|split; [|split]].
  - unfold Response_SetCookie, Response_AddCookie, Response_DelCookie, on_Header,
      Response_Header, set_writer. simpl. do 2 f_equal.
    unfold Add, Set_, Del, values. rewrite lookup_delete_eq. simpl.
    now rewrite insert_delete_eq.
  - unfold Response_DelCookie, on_Header, Response_Header. simpl. apply values_Del_eq.
  - intros k Hk. unfold Response_DelCookie, on_Header, Response_Header. simpl.
    unfold Del. now apply lookup_delete_ne.
  - unfold Response_DelCookie, on_Header, Response_Header, set_writer. simpl.
    do 2 f_equal. unfold Del. apply delete_id. apply lookup_delete_eq.
Qed.

(** ** Content type by extension, downloads, and the choice of format *)

(** [SetContentType] takes the extension with or without its dot; an
    extension the MIME table does not know leaves the context as it is; a
    known one sets Content-Type and no other header, and nothing is asked
    of the writer. *)
Theorem SetContentType_by_extension (TypeByExtension : string -> string)
  (ext : string) (ctx : Context) :
  let dotted := if gostrings.HasPrefix ext "." then ext else "." +:+ ext in
  let ctx' := SetContentType TypeByExtension ext ctx in
  ctx' = SetContentType TypeByExtension dotted ctx
  /\ (TypeByExtension dotted = "" -> ctx' = ctx)
  /\ (TypeByExtension dotted <> "" ->
      Get (Response_Header (W ctx')) HeaderContentType = TypeByExtension dotted
      /\ (forall k, k <> HeaderContentType ->
            Response_Header (W ctx') !! k = Response_Header (W ctx) !! k)
      /\ calls (writer (W ctx')) = calls (writer (W ctx))
      /\ committed (W ctx') = committed (W ctx)).
Proof.
  intros dotted ctx'.
  assert (Hd : gostrings.HasPrefix dotted "." = true).
  { subst dotted. destruct (gostrings.HasPrefix ext ".") eqn:Hp; [exact Hp|].
    clear. destruct ext; reflexivity. }
  assert (He : ctx' = if negb (String.eqb (TypeByExtension dotted) "")
                      then with_Header (Set_ HeaderContentType (TypeByExtension dotted)) ctx
                      else ctx).
  { subst ctx' dotted. unfold SetContentType.
    destruct (gostrings.HasPrefix ext "."); reflexivity. }
  split; [|split].
  - rewrite He. unfold SetContentType. rewrite Hd. reflexivity.
  - intros Ht. rewrite He, Ht. reflexivity.
  - intros Ht. apply String.eqb_neq in Ht. rewrite He, Ht. simpl.
    split; [apply Get_Set_eq|]. split; [|split; reflexivity].
    intros k Hk. unfold Response_Header. simpl. now apply lookup_Set_ne.
Qed.

Lemma SetContentType_by_extension_witness :
  Get (Response_Header (W (SetContentType sample_TypeByExtension "css"
                             (fresh_context false)))) HeaderContentType
  = "text/css; charset=utf-8"
  /\ SetContentType sample_TypeByExtension "nope" (fresh_context false) = fresh_context false.
Proof.
  destruct (SetContentType_by_extension sample_TypeByExtension "css" (fresh_context false))
    as (_ & _ & H1).
  destruct (SetContentType_by_extension sample_TypeByExtension "nope" (fresh_context false))
    as (_ & H2 & _).
  split; [apply H1; discriminate|apply H2; reflexivity].
Defined.

(** Before it hands over to the file server, [File] has set the seven
    download headers, replacing what was there under those keys, and no
    other: cookies and the rest of the header map are untouched and the
    response is not committed by it.  The file name offered is the display
    name when one is given and not empty, the base name of the path when it
    is missing or empty. *)
Theorem File_sets_download_headers (filepath_Base : string -> string)
  (ServeFile : Context -> string -> Context)
  (file : string) (filename : list string) (ctx : Context) :
  let h0 := Response_Header (W ctx) in
  let h := File_headers filepath_Base file filename h0 in
  let name := match filename with
              | [] => filepath_Base file
              | f0 :: _ => if String.eqb f0 "" then filepath_Base file else f0
              end in
  File filepath_Base ServeFile file filename ctx
    = ServeFile (mkContext (mkResponse (mkWriter h (calls (writer (W ctx))))
                                       (status (W ctx)) (size (W ctx)) (committed (W ctx)))
                           (R ctx) (enableGzip ctx) (RunMode ctx) (log ctx)) file
  /\ map (Get h) [HeaderContentDescription; HeaderContentType; HeaderContentDisposition;
                  HeaderContentTransferEncoding; HeaderExpires; HeaderCacheControl;
                  HeaderPragma]
     = ["File Transfer"; "application/octet-stream"; "attachment; filename=" +:+ name;
        "binary"; "0"; "must-revalidate"; "public"]
  /\ (forall k, k ∉ [HeaderContentDescription; HeaderContentType; HeaderContentDisposition;
                     HeaderContentTransferEncoding; HeaderExpires; HeaderCacheControl;
                     HeaderPragma] -> h !! k = h0 !! k)
  /\ values h HeaderSetCookie = values h0 HeaderSetCookie.
Proof.
  intros h0 h name.
  assert (Hh : h = Set_ HeaderPragma "public"
                 (Set_ HeaderCacheControl "must-revalidate"
                   (Set_ HeaderExpires "0"
                     (Set_ HeaderContentTransferEncoding "binary"
                       (Set_ HeaderContentDisposition ("attachment; filename=" +:+ name)
                         (Set_ HeaderContentType MIMEOctetStream
                           (Set_ HeaderContentDescription "File Transfer" h0))))))).
  { subst h name. unfold File_headers. destruct filename as [|f0 fs]; [reflexivity|].
    destruct (String.eqb f0 ""); reflexivity. }
  assert (Hframe : forall k,
            k ∉ [HeaderContentDescription; HeaderContentType; HeaderContentDisposition;
                 HeaderContentTransferEncoding; HeaderExpires; HeaderCacheControl;
                 HeaderPragma] -> h !! k = h0 !! k).
  { intros k Hk. rewrite Hh.
    repeat (rewrite lookup_Set_ne; [|intros ->; apply Hk; set_solver]). reflexivity. }
  split; [reflexivity|]. split; [|split; [exact Hframe|]].
  - rewrite Hh. cbn [map].
    rewrite !(Get_Set_eq HeaderPragma).
    do 1 (rewrite (Get_Set_ne HeaderPragma HeaderCacheControl) by discriminate).
    rewrite !(Get_Set_eq HeaderCacheControl).
    do 2 (rewrite (Get_Set_ne _ HeaderExpires) by discriminate).
    rewrite !(Get_Set_eq HeaderExpires).
    do 3 (rewrite (Get_Set_ne _ HeaderContentTransferEncoding) by discriminate).
    rewrite !(Get_Set_eq HeaderContentTransferEncoding).
    do 4 (rewrite (Get_Set_ne _ HeaderContentDisposition) by discriminate).
    rewrite !(Get_Set_eq HeaderContentDisposition).
    do 5 (rewrite (Get_Set_ne _ HeaderContentType) by discriminate).
    rewrite !(Get_Set_eq HeaderContentType).
    do 6 (rewrite (Get_Set_ne _ HeaderContentDescription) by discriminate).
    rewrite !(Get_Set_eq HeaderContentDescription).
    reflexivity.
  - unfold values. rewrite Hframe; [reflexivity|].
    unfold HeaderSetCookie, HeaderContentDescription, HeaderContentType,
      HeaderContentDisposition, HeaderContentTransferEncoding, HeaderExpires,
      HeaderCacheControl, HeaderPragma.
    rewrite !not_elem_of_cons. repeat split; try discriminate. apply not_elem_of_nil.
Qed.

Lemma File_sets_download_headers_witness :
  values (File_headers sample_Base "report.pdf" [""]
            (Add HeaderSetCookie "sid=1; Path=/" ∅)) HeaderSetCookie
  = ["sid=1; Path=/"].
Proof.
  destruct (File_sets_download_headers sample_Base (fun c _ => c) "report.pdf" [""]
              (with_Header (Add HeaderSetCookie "sid=1; Path=/") (fresh_context false)))
    as (_ & _ & _ & H).
  exact H.
Defined.

Example File_names :
  Get (File_headers sample_Base "report.pdf" [] ∅) HeaderContentDisposition
  = "attachment; filename=report.pdf"
  /\ Get (File_headers sample_Base "report.pdf" ["out.pdf"] ∅) HeaderContentDisposition
     = "attachment; filename=out.pdf"
  /\ Get (File_headers sample_Base "report.pdf" [""; "x"] ∅) HeaderContentDisposition
     = "attachment; filename=report.pdf".
Proof. vm_compute. repeat split; reflexivity. Qed.

Section FormatChoice.

Variable transport : ResponseWriter -> bytes -> Z * option error.
Variable beforeWriteHeader : Header -> Header.
Variable ParseEncoding : Request -> string.
Variable WriteBody : string -> bytes -> bool * string * bytes.
Variable Data : Type.
Variable json_Marshal : Data -> bytes * option error.
Variable json_MarshalIndent : Data -> string -> string -> bytes * option error.
Variable xml_Marshal : Data -> bytes * option error.
Variable xml_MarshalIndent : Data -> string -> string -> bytes * option error.
Variable RUNMODE_PROD : string.
Variable AcceptJSON : Context -> bool.
Variable AcceptXML : Context -> bool.

Local Abbreviation json :=
  (JSON transport beforeWriteHeader ParseEncoding WriteBody Data
        json_Marshal json_MarshalIndent RUNMODE_PROD).
Local Abbreviation xml :=
  (XML transport beforeWriteHeader ParseEncoding WriteBody Data
       xml_Marshal xml_MarshalIndent RUNMODE_PROD).
Local Abbreviation json_or_xml :=
  (JSONOrXML transport beforeWriteHeader ParseEncoding WriteBody Data
             json_Marshal json_MarshalIndent xml_Marshal xml_MarshalIndent
             RUNMODE_PROD AcceptJSON AcceptXML).

(** [JSONOrXML] answers in XML only to a client that accepts XML and does
    not accept JSON, in JSON to every other one, the client that accepts
    neither included.  Once XML is chosen there is no way back: when the XML
    marshaler fails, the error is returned and the response left as it was,
    whatever the JSON marshaler would have produced. *)
Theorem JSONOrXML_choice (st : Z) (data : Data) (ctx : Context) :
  json_or_xml st data ctx =
    (if AcceptXML ctx && negb (AcceptJSON ctx) then xml st data ctx else json st data ctx)
  /\ (forall err,
        AcceptXML ctx = true -> AcceptJSON ctx = false ->
        (if String.eqb (RunMode ctx) RUNMODE_PROD then xml_Marshal data
         else xml_MarshalIndent data "" "  ").2 = Some err ->
        json_or_xml st data ctx = (ctx, Return (Some err))).
Proof.
  split.
  - unfold JSONOrXML. destruct (AcceptJSON ctx), (AcceptXML ctx); reflexivity.
  - intros err Hx Hj Hm. unfold JSONOrXML. rewrite Hx, Hj. simpl. unfold XML.
    destruct (if String.eqb (RunMode ctx) RUNMODE_PROD then _ else _) as [b e].
    simpl in Hm. subst e. reflexivity.
Qed.

End FormatChoice.

Lemma JSONOrXML_choice_witness :
  JSONOrXML transport_ok no_hook sample_ParseEncoding sample_WriteBody SampleData
            sample_json_Marshal sample_json_MarshalIndent
            sample_xml_Marshal sample_xml_MarshalIndent "prod"
            (fun _ => false) (fun _ => true) 200 MapA1 (fresh_context false)
  = (fresh_context false, Return (Some "xml: unsupported type: map[string]int")).
Proof.
  destruct (JSONOrXML_choice transport_ok no_hook sample_ParseEncoding sample_WriteBody
              SampleData sample_json_Marshal sample_json_MarshalIndent
              sample_xml_Marshal sample_xml_MarshalIndent "prod"
              (fun _ => false) (fun _ => true) 200 MapA1 (fresh_context false)) as (_ & H).
  apply H; reflexivity.
Defined.

(** ** Write errors and misbehaving transports *)

Example Send_write_error :
  let r := Send transport_broken no_hook sample_ParseEncoding sample_WriteBody
                200 "hello" (fresh_context false) in
  r.2 = Return (Some "broken pipe") /\ committed (W r.1) = true /\ size (W r.1) = 0.
Proof. vm_compute. repeat split; reflexivity. Qed.

Example Send_short_write_compressed :
  (Send transport_broken no_hook sample_ParseEncoding sample_WriteBody
        200 "hello" (fresh_context true)).2 = Return (Some "broken pipe")
  /\ (Send (fun _ _ => (3, None)) no_hook sample_ParseEncoding sample_WriteBody
           200 "hello" (fresh_context true)).2 = Return (Some "short write")
  /\ (Send (fun _ _ => (99, None)) no_hook sample_ParseEncoding sample_WriteBody
           200 "hello" (fresh_context true)).2
     = Panic "bytes.Buffer.WriteTo: invalid Write count".
Proof. vm_compute. repeat split; reflexivity. Qed.

Example NoContent_writes_no_body :
  calls (writer (W (NoContent no_hook 204 (fresh_context true)))) = [CallWriteHeader 204 ∅].
Proof. reflexivity. Qed.

Example reset_uncommits (ctx : Context) :
  committed (reset fresh_writer (W (NoContent no_hook 204 ctx))) = false.
Proof. reflexivity. Qed.

(** ** Small checks of the library models *)

Example Itoa_0 : strconv.Itoa 0 = "0".
Proof. reflexivity. Qed.

Example Itoa_1234 : strconv.Itoa 1234 = "1234".
Proof. reflexivity. Qed.

Example FormatInt_min : strconv.FormatInt (-9223372036854775808) = "-9223372036854775808".
Proof. vm_compute. reflexivity. Qed.

Example Join_pipe : gostrings.Join ["a"; "b"; "c"] "|" = "a|b|c".
Proof. reflexivity. Qed.

Example base64_hello : base64.EncodeToString "hello" = "aGVsbG8=".
Proof. vm_compute. reflexivity. Qed.

Example base64_url_alphabet :
  base64.EncodeToString (String (byte_of 251) (String (byte_of 255) "")) = "-_8=".
Proof. vm_compute. reflexivity. Qed.

Example sha1_abc :
  hex.EncodeToString (sha1.Sum "abc") = "a9993e364706816aba3e25717850c26c9cd0d89d".
Proof. vm_compute. reflexivity. Qed.

Example sha1_empty :
  hex.EncodeToString (sha1.Sum "") = "da39a3ee5e6b4b0d3255bfef95601890afd80709".
Proof. vm_compute. reflexivity. Qed.

Example sha1_two_blocks :
  hex.EncodeToString
    (sha1.Sum "abcdbcdecdefdefgefghfghighijhijkijkljklmklmnlmnomnopnopq")
  = "84983e441c3bd26ebaae4aa1f95129e5e54670f1".
Proof. vm_compute. reflexivity. Qed.

Example hmac_sha1_fox :
  Sprintf_02x (hmac.Sum_sha1 "key" "The quick brown fox jumps over the lazy dog")
  = "de7c9b85b8b78aa6bc8a7a36f70a90701c9db4d9".
Proof. vm_compute. reflexivity. Qed.
